(** * KTG: technical readiness coefficient of mining equipment

    A shallow embedding of the numeric core of [KTG.py]:

    - [calculate_ktg] (lines 20-36), the clamped readiness formula;
    - [generate_data] (lines 118-124), the sweep over historical recovery
      times;
    - the heat-map grid built at module level (lines 353-362);
    - what the tabs compute from the sweep: key points (190-194), the
      efficiency indicator (206-214), the status column (223), "reaches
      1" (288-296), the analysis times (304-313), the exported summary
      (394-403) and the report's improvement (479).

    Numbers.  Python's [float] (and the [int] bounds the sidebar supplies)
    are embedded as exact rationals [Q]: the arithmetic below is the
    arithmetic of the formula, without binary64 rounding.  Equality of
    numbers is therefore [Qeq] ([==]), the counterpart of Python's [==]
    on numbers, and not Leibniz equality of numerator/denominator pairs.
    Module [Binary64] repeats [calculate_ktg] on IEEE 754 doubles, for
    the scalar scenarios and for the facts that survive rounding.

    Exceptions.  Every operation that can raise in Python returns a
    [result]: [Return v] or [Raise e].  True division raises
    [ZeroDivisionError] on a zero divisor, exactly as [/] does on Python
    numbers, so that reachability of that error is a theorem and not an
    assumption of the model. *)

From Stdlib Require Import QArith Qround Qabs ZArith List String Bool.
From Stdlib Require Import Lia Lqa Morphisms Setoid.
From Stdlib Require PrimFloat FloatAxioms.
Import ListNotations.

Local Open Scope Q_scope.

(* ================================================================= *)
(** ** The fragment of the Python runtime the program uses *)

Module Py.

(** Exceptions the embedded code can raise.  [ValueError] carries the
    message of the [raise] statement. *)
Inductive exn : Type :=
| ValueError (msg : string)
| ZeroDivisionError.

Inductive result (A : Type) : Type :=
| Return (a : A)
| Raise (e : exn).

Arguments Return {A} a.
Arguments Raise {A} e.

Definition bind {A B : Type} (m : result A) (k : A -> result B) : result B :=
  match m with
  | Return a => k a
  | Raise e => Raise e
  end.

(** Comparisons of numbers, as booleans. *)
Definition le (x y : Q) : bool := Qle_bool x y.
Definition lt (x y : Q) : bool := negb (Qle_bool y x).
Definition gt (x y : Q) : bool := lt y x.

(** [x / y] on numbers: [ZeroDivisionError] when [y == 0]. *)
Definition truediv (x y : Q) : result Q :=
  if Qeq_bool y 0 then Raise ZeroDivisionError else Return (x / y).

(** The two-argument builtins [min(a, b)] and [max(a, b)]: the first
    argument is kept unless the second is strictly smaller (resp.
    strictly larger). *)
Definition min (a b : Q) : Q := if lt b a then b else a.
Definition max (a b : Q) : Q := if gt b a then b else a.

(** A list comprehension [[f(x) for x in xs]]: elements are evaluated
    left to right and the first exception aborts the comprehension. *)
Fixpoint comprehension {A B : Type} (f : A -> result B) (xs : list A)
  : result (list B) :=
  match xs with
  | [] => Return []
  | x :: xs' =>
      bind (f x) (fun y =>
      bind (comprehension f xs') (fun ys =>
      Return (y :: ys)))
  end.

(** A [for x in xs: body] loop over a loop-carried state [st]. *)
Fixpoint for_in {A S : Type} (xs : list A) (body : S -> A -> result S) (st : S)
  : result S :=
  match xs with
  | [] => Return st
  | x :: xs' => bind (body st x) (for_in xs' body)
  end.

(** [l.append(x)] *)
Definition append {A : Type} (l : list A) (x : A) : list A := l ++ [x].

Definition ge (x y : Q) : bool := le y x.

(** [max(xs)] on a list: [ValueError] on an empty one (the wording of
    the message is the interpreter's), otherwise the scan the
    two-argument form performs, so the first maximal element wins. *)
Definition msg_max_empty : string := "max() arg is an empty sequence".

Definition max_list (xs : list Q) : result Q :=
  match xs with
  | [] => Raise (ValueError msg_max_empty)
  | x :: xs' => Return (fold_left max xs' x)
  end.

(** [any(bs)] *)
Definition any (bs : list bool) : bool := existsb (fun b => b) bs.

(** [sum(xs)], from 0. *)
Definition sum (xs : list Q) : Q := fold_left Qplus xs 0.

End Py.

Import Py.

Declare Scope py_scope.
Delimit Scope py_scope with py.
Notation "x <- m ;; k" := (bind m (fun x => k))
  (at level 61, m at next level, right associativity) : py_scope.
Local Open Scope py_scope.

(* ================================================================= *)
(** ** numpy *)

Module Np.

(** [numpy.arange(start, stop, step)] for a positive [step]: the
    documented length is [ceil((stop - start) / step)] (no element when
    that is not positive) and element [i] is [start + i * step].  The
    length is taken here in exact arithmetic; NumPy takes it on doubles,
    which agrees whenever the bounds are whole numbers of half hours
    ([Spec.half_hours]) and may give one more point otherwise, so only
    statements restricted in that way pin the length or the last
    element. *)
Definition arange_len (start stop step : Q) : nat :=
  Z.to_nat (Qceiling ((stop - start) / step)).

Definition arange (start stop step : Q) : list Q :=
  List.map (fun i : nat => start + inject_Z (Z.of_nat i) * step)
           (seq 0 (arange_len start stop step)).

(** [numpy.abs(a - t)], element by element. *)
Definition abs_diff (a : list Q) (t : Q) : list Q :=
  List.map (fun x => Qabs (x - t)) a.

(** [a.argmin()]: the index of the first occurrence of the minimum;
    [ValueError] on an empty array. *)
Definition msg_argmin_empty : string :=
  "attempt to get argmin of an empty sequence".

Fixpoint argmin_from (xs : list Q) (i : nat) (best : Q) (best_i : nat) : nat :=
  match xs with
  | [] => best_i
  | x :: xs' =>
      if Py.lt x best then argmin_from xs' (S i) x i
      else argmin_from xs' (S i) best best_i
  end.

Definition argmin (a : list Q) : result nat :=
  match a with
  | [] => Raise (ValueError msg_argmin_empty)
  | x :: xs => Return (argmin_from xs 1 x 0)
  end.

(** [numpy.where(mask)[0]]: the indices at which the mask holds, in
    increasing order. *)
Fixpoint where_from (mask : list bool) (i : nat) : list nat :=
  match mask with
  | [] => []
  | b :: mask' =>
      if b then i :: where_from mask' (S i) else where_from mask' (S i)
  end.

Definition where_ (mask : list bool) : list nat := where_from mask 0.

(** [numpy.max(a)] and [numpy.min(a)]: [ValueError] on an empty array. *)
Definition msg_max_empty : string :=
  "zero-size array to reduction operation maximum which has no identity".
Definition msg_min_empty : string :=
  "zero-size array to reduction operation minimum which has no identity".

Definition max (a : list Q) : result Q :=
  match a with
  | [] => Raise (ValueError msg_max_empty)
  | x :: xs => Return (fold_left Py.max xs x)
  end.

Definition min (a : list Q) : result Q :=
  match a with
  | [] => Raise (ValueError msg_min_empty)
  | x :: xs => Return (fold_left Py.min xs x)
  end.

(** [numpy.mean(a)]: the sum over the length; on an empty array NumPy
    warns and yields nan, rendered here as [None].  The sum is exact
    here and rounded in NumPy, so no statement below says where the
    mean falls. *)
Definition mean (a : list Q) : option Q :=
  match a with
  | [] => None
  | _ => Some (Py.sum a / inject_Z (Z.of_nat (List.length a)))
  end.

End Np.

(* ================================================================= *)
(** ** The program *)

Definition msg_t_vosst_nov_ishod : string :=
  "Исходное время восстановления должно быть больше 0".

Definition msg_ktg_zakl : string :=
  "КТГ закладываемый должен быть в диапазоне от 0.01 до 1".

(** [calculate_ktg], lines 20-36. *)
Definition calculate_ktg (ktg_zakl t_vosst_sist t_vosst_nov_ishod : Q)
  : result Q :=
  if Py.le t_vosst_nov_ishod 0 then
    Raise (ValueError msg_t_vosst_nov_ishod)
  else if negb (Py.le 0.01 ktg_zakl && Py.le ktg_zakl 1) then
    Raise (ValueError msg_ktg_zakl)
  else
    q <- Py.truediv t_vosst_sist t_vosst_nov_ishod ;;
    let ktg_result := ktg_zakl * q in
    let ktg_result := Py.max 0.01 (Py.min 1 ktg_result) in
    Return ktg_result.

(** The three locals of [generate_data], lines 120-122: the range, the
    coefficient at each time, the percent change of each coefficient. *)
Definition t_vosst_range (t_min t_max : Q) : list Q :=
  Np.arange t_min (t_max + 0.5) 0.5.

Definition ktg_values (ktg_zakl t_vosst_sist : Q) (t_vosst_range : list Q)
  : result (list Q) :=
  Py.comprehension (fun t => calculate_ktg ktg_zakl t_vosst_sist t)
                   t_vosst_range.

(** Line 122 divides by [ktg_zakl] with no test around it. *)
Definition ktg_change_percent (ktg_zakl : Q) (ktg_values : list Q)
  : result (list Q) :=
  Py.comprehension
    (fun ktg => q <- Py.truediv (ktg - ktg_zakl) ktg_zakl ;; Return (q * 100))
    ktg_values.

(** [generate_data], lines 118-124. *)
Definition generate_data (ktg_zakl t_vosst_sist t_min t_max : Q)
  : result (list Q * list Q * list Q) :=
  let ts := t_vosst_range t_min t_max in
  ks <- ktg_values ktg_zakl t_vosst_sist ts ;;
  ps <- ktg_change_percent ktg_zakl ks ;;
  Return (ts, ks, ps).

(** The guarded percent change of the metrics column and of the export
    summary, lines 207 and 402:
    [((k - ktg_zakl) / ktg_zakl * 100) if ktg_zakl > 0 else 0]. *)
Definition improvement (ktg_zakl k : Q) : result Q :=
  if Py.gt ktg_zakl 0 then
    q <- Py.truediv (k - ktg_zakl) ktg_zakl ;; Return (q * 100)
  else Return 0.

(** The heat-map grid, lines 353-362. *)
Definition t_sist_range : list Q := Np.arange 1 6 0.5.

Definition t_ishod_range (t_min t_max : Q) : list Q :=
  Np.arange t_min (t_max + 1) 1.

Definition heatmap_data (ktg_zakl t_min t_max : Q) : result (list (list Q)) :=
  Py.for_in t_sist_range
    (fun heatmap_data t_sist =>
       row <- Py.for_in (t_ishod_range t_min t_max)
                (fun row t_ishod =>
                   ktg <- calculate_ktg ktg_zakl t_sist t_ishod ;;
                   Return (Py.append row ktg))
                [] ;;
       Return (Py.append heatmap_data row))
    [].

(* ================================================================= *)
(** ** What the tabs compute from the sweep

    The module-level code of the four tabs, cut at the calls that only
    render: each definition is the computation of the cited lines as a
    function of the names those lines read.  An index expression [a[i]]
    is rendered with [nth_error]; [None] stands for Python's
    [IndexError]. *)

(** Line 193: [np.abs(t_vosst_range - t).argmin()], the index of the
    sweep point nearest to the key point [t]. *)
Definition key_point_idx (t_vosst_range : list Q) (t : Q) : result nat :=
  Np.argmin (Np.abs_diff t_vosst_range t).

(** Lines 192-194, the body of the loop over the key points: the
    coefficient shown for key point [t]; the outer [None] is a key point
    outside the bounds, which is skipped. *)
Definition key_point (t_vosst_range ktg_values : list Q) (t_min t_max t : Q)
  : result (option (option Q)) :=
  if Py.le t_min t && Py.le t t_max then
    idx <- key_point_idx t_vosst_range t ;;
    Return (Some (nth_error ktg_values idx))
  else Return None.

(** Lines 206-214: the efficiency indicator and the banner it is shown
    in ([st.success], [st.info] or [st.warning]).  The thresholds are
    compared on exact numbers: an improvement that is exactly 50 or 20
    here can come out a last place above on doubles, so no statement
    below places an improvement at a threshold. *)
Inductive banner : Type := success | info | warning.

Definition efficiency (ktg_zakl : Q) (ktg_values : list Q)
  : result (Q * banner) :=
  ktg_max <- Py.max_list ktg_values ;;
  improvement <- improvement ktg_zakl ktg_max ;;
  Return (improvement,
          if Py.gt improvement 50 then success
          else if Py.gt improvement 20 then info
          else warning).

(** Line 223: the status column of the data table. *)
Definition status_improved : string := "Улучшение".
Definition status_worsened : string := "Ухудшение".

Definition status (ktg_change_percent : list Q) : list string :=
  List.map (fun x => if Py.ge x 0 then status_improved else status_worsened)
           ktg_change_percent.

(** Lines 288-296: whether the coefficient reaches 1 and, if it does,
    the time reported for it.  The comparison with 0.999 is on exact
    numbers; the statements below relate it to the coefficients of the
    sweep, never to the raw product. *)
Definition ktg_reaches_1 (ktg_values : list Q) : bool :=
  Py.any (List.map (fun k => Py.ge k 0.999) ktg_values).

Definition idx_1 (ktg_values : list Q) : option nat :=
  nth_error (Np.where_ (List.map (fun k => Py.ge k 0.999) ktg_values)) 0.

Definition t_at_1 (t_vosst_range ktg_values : list Q) : option Q :=
  match idx_1 ktg_values with
  | Some i => nth_error t_vosst_range i
  | None => None
  end.

(** Lines 304-313: the three analysis times (in the order of the dict)
    with the coefficient and the percent change at each. *)
Definition analysis_times (t_min t_max : Q) : list Q :=
  [t_min; (t_min + t_max) / 2; t_max].

Definition analysis (ktg_zakl t_vosst_sist t_min t_max : Q)
  : result (list (Q * Q * Q)) :=
  Py.comprehension
    (fun time =>
       ktg <- calculate_ktg ktg_zakl t_vosst_sist time ;;
       q <- Py.truediv (ktg - ktg_zakl) ktg_zakl ;;
       Return (time, ktg, q * 100))
    (analysis_times t_min t_max).

(** Lines 394-403: the one-row summary that is exported. *)
Record summary : Type := {
  mean_ktg : option Q;
  max_ktg : Q;
  min_ktg : Q;
  max_improvement : Q
}.

Definition export_df (ktg_zakl : Q) (ktg_values : list Q) : result summary :=
  let mean := Np.mean ktg_values in
  mx <- Np.max ktg_values ;;
  mn <- Np.min ktg_values ;;
  imp <- (if Py.gt ktg_zakl 0 then
            ktg_max <- Np.max ktg_values ;;
            q <- Py.truediv (ktg_max - ktg_zakl) ktg_zakl ;;
            Return (q * 100)
          else Return 0) ;;
  Return {| mean_ktg := mean; max_ktg := mx; min_ktg := mn;
            max_improvement := imp |}.

(** Line 479: the maximal improvement as the report prints it, without
    the test of lines 207 and 402. *)
Definition report_improvement (ktg_zakl : Q) (ktg_values : list Q)
  : result Q :=
  ktg_max <- Np.max ktg_values ;;
  q <- Py.truediv (ktg_max - ktg_zakl) ktg_zakl ;;
  Return (q * 100).

(* ================================================================= *)
(** ** The same scalar function on IEEE 754 doubles

    [calculate_ktg] once more, with Rocq's primitive binary64 floats in
    place of [Q], to replay the scalar scenarios with the rounding the
    interpreter performs.  The [int] literals [0] and [1] of the source
    compare with a float by value, hence the float constants here. *)

Module Binary64.

Import PrimFloat.
#[local] Set Warnings "-inexact-float".
Local Open Scope float_scope.

Definition min (a b : PrimFloat.float) : PrimFloat.float :=
  if PrimFloat.ltb b a then b else a.

Definition max (a b : PrimFloat.float) : PrimFloat.float :=
  if PrimFloat.ltb a b then b else a.

Definition truediv (x y : PrimFloat.float) : result PrimFloat.float :=
  if PrimFloat.eqb y 0 then Raise ZeroDivisionError
  else Return (PrimFloat.div x y).

Definition calculate_ktg
  (ktg_zakl t_vosst_sist t_vosst_nov_ishod : PrimFloat.float)
  : result PrimFloat.float :=
  if PrimFloat.leb t_vosst_nov_ishod 0 then
    Raise (ValueError msg_t_vosst_nov_ishod)
  else if negb (PrimFloat.leb 0.01 ktg_zakl && PrimFloat.leb ktg_zakl 1) then
    Raise (ValueError msg_ktg_zakl)
  else
    (q <- truediv t_vosst_sist t_vosst_nov_ishod ;;
     let ktg_result := PrimFloat.mul ktg_zakl q in
     let ktg_result := max 0.01 (min 1 ktg_result) in
     Return ktg_result)%py.

End Binary64.

(* ================================================================= *)
(** ** Vocabulary of the specification *)

Module Spec.

(** [clamp(x, lo, hi)] in the usual sense: [lo] below [lo], [hi] above
    [hi], [x] in between. *)
Definition clamp (x lo hi : Q) : Q :=
  if Py.lt x lo then lo else if Py.lt hi x then hi else x.

(** The specification's [InvalidArgument] is the program's [ValueError]. *)
Definition InvalidArgument (e : exn) : Prop :=
  exists msg, e = ValueError msg.

(** The [i]-th point of a grid starting at [t0] with the given step. *)
Definition grid (t0 step : Q) (i : nat) : Q :=
  t0 + inject_Z (Z.of_nat i) * step.

(** "The ordered sequence tMin, tMin + 0.5, tMin + 1.0, ..., up to and
    including tMax": consecutive points of the half-hour grid from
    [tMin], the last of which is [tMax]. *)
Definition sweeps_to (times : list Q) (tMin tMax : Q) : Prop :=
  (forall i t, nth_error times i = Some t -> t == grid tMin 0.5 i) /\
  (exists t, nth_error times (pred (List.length times)) = Some t /\ t == tMax).

(** "For each time value the corresponding result equals
    compute(baseline, systemTime, time)". *)
Definition computed_at (baseline systemTime : Q) (times results : list Q)
  : Prop :=
  Forall2 (fun t r => calculate_ktg baseline systemTime t = Return r)
          times results.

(** The sweep contract at one input, as the specification words it. *)
Definition sweep_contract (baseline systemTime tMin tMax : Q) : Prop :=
  0.01 <= baseline <= 1 -> 0 < systemTime -> 0 < tMin -> tMin <= tMax ->
  exists times results percents,
    generate_data baseline systemTime tMin tMax
      = Return (times, results, percents) /\
    sweeps_to times tMin tMax /\
    computed_at baseline systemTime times results.

(** The percent change of one point. *)
Definition percent_change (baseline result : Q) : Q :=
  (result - baseline) / baseline * 100.

(** "The division by baseline is guarded against baseline == 0 inside
    generateSweep": whatever results the percent step is handed, it
    completes when the baseline is zero. *)
Definition percent_step_guarded : Prop :=
  forall results baseline, baseline == 0 ->
    exists percents, ktg_change_percent baseline results = Return percents.

(** A whole number of half hours, below 2^50 hours: binary64 holds such
    a time, and every half hour up to it, exactly, so that the sums and
    the quotient [numpy.arange] forms from it are not rounded. *)
Definition half_hours (t : Q) : Prop :=
  exists a : nat,
    (Z.of_nat a < 2 ^ 51)%Z /\ t == inject_Z (Z.of_nat a) * 0.5.

(** Two decimals agree "to four places" when they differ by at most
    half a unit of the fourth place. *)
Definition agrees_to_4dp (x shown : Q) : Prop :=
  shown - 0.00005 <= x <= shown + 0.00005.

End Spec.

(* ================================================================= *)
(** ** Equality of outcomes *)

(** Two outcomes agree when both return related values or both raise
    the same exception. *)
Inductive result_eq {A : Type} (R : A -> A -> Prop)
  : result A -> result A -> Prop :=
| result_eq_Return (a b : A) : R a b -> result_eq R (Return a) (Return b)
| result_eq_Raise (e : exn) : result_eq R (Raise e) (Raise e).

(** Pointwise numeric equality of sequences and of sweeps. *)
Definition seq_eq : list Q -> list Q -> Prop := Forall2 Qeq.

Definition sweep_eq (x y : list Q * list Q * list Q) : Prop :=
  seq_eq (fst (fst x)) (fst (fst y)) /\
  seq_eq (snd (fst x)) (snd (fst y)) /\
  seq_eq (snd x) (snd y).

(** The coefficient at historical time [t] once the checks have
    passed: the value [calculate_ktg] returns. *)
Definition ktg_at (ktg_zakl t_vosst_sist t : Q) : Q :=
  Py.max 0.01 (Py.min 1 (ktg_zakl * (t_vosst_sist / t))).

(** A sequence that never goes up. *)
Definition nonincreasing (l : list Q) : Prop :=
  forall i j x y, (i <= j)%nat ->
    nth_error l i = Some x -> nth_error l j = Some y -> y <= x.

(* ================================================================= *)
(** * Properties *)

(** ** Comparisons, division, [min] and [max] *)

Lemma le_true x y : Py.le x y = true <-> x <= y.
Proof. unfold Py.le. apply Qle_bool_iff. Qed.

Lemma le_false x y : Py.le x y = false <-> y < x.
Proof.
  unfold Py.le. split; intro H.
  - apply Qnot_le_lt. intro Hle. apply Qle_bool_iff in Hle. congruence.
  - destruct (Qle_bool x y) eqn:E; [|reflexivity].
    apply Qle_bool_iff in E. exfalso. apply (Qlt_not_le _ _ H E).
Qed.

Lemma lt_true x y : Py.lt x y = true <-> x < y.
Proof.
  unfold Py.lt. rewrite negb_true_iff. apply (le_false y x).
Qed.

Lemma lt_false x y : Py.lt x y = false <-> y <= x.
Proof.
  unfold Py.lt. rewrite negb_false_iff. apply (le_true y x).
Qed.

Lemma truediv_Return x y : ~ y == 0 -> Py.truediv x y = Return (x / y).
Proof.
  intro Hy. unfold Py.truediv.
  destruct (Qeq_bool y 0) eqn:E; [|reflexivity].
  apply Qeq_bool_eq in E. contradiction.
Qed.

(** The nest [max(lo, min(hi, x))] is the clamp of [x] to [[lo, hi]]. *)
Lemma max_min_clamp x lo hi :
  lo <= hi -> Py.max lo (Py.min hi x) == Spec.clamp x lo hi.
Proof.
  intro Hlh. unfold Py.max, Py.min, Py.gt, Spec.clamp.
  destruct (Py.lt x hi) eqn:E1.
  - apply lt_true in E1.
    destruct (Py.lt lo x) eqn:E2.
    + apply lt_true in E2.
      assert (Py.lt x lo = false) as -> by (apply lt_false; lra).
      assert (Py.lt hi x = false) as -> by (apply lt_false; lra).
      reflexivity.
    + apply lt_false in E2.
      destruct (Py.lt x lo) eqn:E3; [reflexivity|].
      apply lt_false in E3.
      assert (Py.lt hi x = false) as -> by (apply lt_false; lra).
      lra.
  - apply lt_false in E1.
    destruct (Py.lt lo hi) eqn:E2.
    + apply lt_true in E2.
      assert (Py.lt x lo = false) as -> by (apply lt_false; lra).
      destruct (Py.lt hi x) eqn:E3; [reflexivity|].
      apply lt_false in E3. lra.
    + apply lt_false in E2.
      assert (Py.lt x lo = false) as -> by (apply lt_false; lra).
      destruct (Py.lt hi x) eqn:E3; [lra|].
      apply lt_false in E3. lra.
Qed.

Lemma max_min_bounds x lo hi :
  lo <= hi -> lo <= Py.max lo (Py.min hi x) <= hi.
Proof.
  intro Hlh. unfold Py.max, Py.min, Py.gt.
  destruct (Py.lt x hi) eqn:E1.
  - apply lt_true in E1.
    destruct (Py.lt lo x) eqn:E2.
    + apply lt_true in E2. lra.
    + lra.
  - destruct (Py.lt lo hi) eqn:E2; lra.
Qed.

(** Case analysis on every comparison the goal tests, innermost first. *)
Ltac cases_lt :=
  repeat match goal with
  | |- context [if Py.lt ?a ?b then _ else _] =>
      lazymatch a with context [if _ then _ else _] => fail | _ => idtac end;
      lazymatch b with context [if _ then _ else _] => fail | _ => idtac end;
      let E := fresh "E" in
      destruct (Py.lt a b) eqn:E;
      [apply lt_true in E | apply lt_false in E]
  end.

Lemma max_min_mono x y lo hi :
  x <= y -> Py.max lo (Py.min hi x) <= Py.max lo (Py.min hi y).
Proof.
  intro Hxy. unfold Py.max, Py.min, Py.gt. cases_lt; lra.
Qed.

(* ----------------------------------------------------------------- *)
(** ** [calculate_ktg] *)

(** The value the function computes once both checks have passed. *)
Lemma calculate_ktg_valid b s h :
  0.01 <= b <= 1 -> 0 < h ->
  calculate_ktg b s h = Return (Py.max 0.01 (Py.min 1 (b * (s / h)))).
Proof.
  intros [Hb1 Hb2] Hh. unfold calculate_ktg.
  assert (Py.le h 0 = false) as -> by (now apply le_false).
  assert (Py.le 0.01 b = true) as -> by (now apply le_true).
  assert (Py.le b 1 = true) as -> by (now apply le_true).
  cbn [andb negb].
  rewrite truediv_Return by (intro E; rewrite E in Hh; discriminate).
  reflexivity.
Qed.

Lemma calculate_ktg_bad_time b s h :
  h <= 0 -> calculate_ktg b s h = Raise (ValueError msg_t_vosst_nov_ishod).
Proof.
  intro Hh. unfold calculate_ktg.
  now assert (Py.le h 0 = true) as -> by (now apply le_true).
Qed.

Lemma calculate_ktg_bad_baseline b s h :
  0 < h -> ~ (0.01 <= b <= 1) ->
  calculate_ktg b s h = Raise (ValueError msg_ktg_zakl).
Proof.
  intros Hh Hb. unfold calculate_ktg.
  assert (Py.le h 0 = false) as -> by (now apply le_false).
  destruct (Py.le 0.01 b) eqn:E1; [|reflexivity].
  destruct (Py.le b 1) eqn:E2; [|reflexivity].
  apply le_true in E1, E2. exfalso. apply Hb. now split.
Qed.

(** The three ways a call can end. *)
Lemma calculate_ktg_cases b s h :
  (h <= 0 /\ calculate_ktg b s h = Raise (ValueError msg_t_vosst_nov_ishod)) \/
  (0 < h /\ ~ (0.01 <= b <= 1) /\
     calculate_ktg b s h = Raise (ValueError msg_ktg_zakl)) \/
  (0 < h /\ 0.01 <= b <= 1 /\
     calculate_ktg b s h = Return (Py.max 0.01 (Py.min 1 (b * (s / h))))).
Proof.
  destruct (Qlt_le_dec 0 h) as [Hh|Hh].
  - destruct (Qlt_le_dec b 0.01) as [Hb1|Hb1].
    + right; left. repeat split; trivial.
      * intros [H _]. apply (Qlt_not_le _ _ Hb1 H).
      * apply calculate_ktg_bad_baseline; trivial.
        intros [H _]. apply (Qlt_not_le _ _ Hb1 H).
    + destruct (Qlt_le_dec 1 b) as [Hb2|Hb2].
      * right; left. repeat split; trivial.
        -- intros [_ H]. apply (Qlt_not_le _ _ Hb2 H).
        -- apply calculate_ktg_bad_baseline; trivial.
           intros [_ H]. apply (Qlt_not_le _ _ Hb2 H).
      * right; right. repeat split; trivial.
        now apply calculate_ktg_valid.
  - left. split; trivial. now apply calculate_ktg_bad_time.
Qed.

(** Whatever the call raises is a [ValueError]: by the time the division
    runs its divisor is positive. *)
Lemma calculate_ktg_Raise b s h e :
  calculate_ktg b s h = Raise e -> Spec.InvalidArgument e.
Proof.
  destruct (calculate_ktg_cases b s h)
    as [[_ E] | [[_ [_ E]] | [_ [_ E]]]]; rewrite E.
  - intros [= <-]. now eexists.
  - intros [= <-]. now eexists.
  - discriminate.
Qed.

(** The quotient of a fixed non-negative numerator shrinks as the
    positive denominator grows. *)
Lemma Qdiv_antitone s h1 h2 : 0 <= s -> 0 < h1 -> h1 <= h2 -> s / h2 <= s / h1.
Proof.
  intros Hs H1 H12.
  assert (H2 : 0 < h2) by lra.
  apply Qle_shift_div_l; [exact H1|].
  setoid_replace (s / h2 * h1) with (s * (h1 / h2))
    by (field; intro E; rewrite E in H2; discriminate).
  assert (Hq : h1 / h2 <= 1).
  { apply Qle_shift_div_r; [exact H2 | lra]. }
  assert (Hq0 : 0 <= h1 / h2).
  { apply Qle_shift_div_l; [exact H2 | lra]. }
  nra.
Qed.

Lemma Qdiv_monotone s1 s2 h : 0 < h -> s1 <= s2 -> s1 / h <= s2 / h.
Proof.
  intros Hh Hs. apply Qle_shift_div_l; [exact Hh|].
  setoid_replace (s1 / h * h) with s1
    by (field; intro E; rewrite E in Hh; discriminate).
  exact Hs.
Qed.

Lemma Qdiv_nonpos s h : s <= 0 -> 0 < h -> s / h <= 0.
Proof.
  intros Hs Hh. apply Qle_shift_div_r; [exact Hh | lra].
Qed.

(** A non-positive raw value is clamped to the floor. *)
Lemma max_min_floor x : x <= 0 -> Py.max 0.01 (Py.min 1 x) = 0.01.
Proof.
  intro Hx. unfold Py.max, Py.min, Py.gt.
  assert (Py.lt x 1 = true) as -> by (apply lt_true; lra).
  now assert (Py.lt 0.01 x = false) as -> by (apply lt_false; lra).
Qed.

(** C1. For every baseline in [0.01, 1.0], every system time and every
    historical time > 0, [calculate_ktg] returns the raw product
    baseline * (systemTime / historicalTime) clamped to [0.01, 1.0];
    in particular compute(0.05, 2.0, 4.0) is 0.025 and
    compute(0.05, 2.0, 0.05) is 1.0. *)
Theorem C1_returns_clamped_product :
  (forall b s h, 0.01 <= b <= 1 -> 0 < h ->
     exists r, calculate_ktg b s h = Return r /\
               r == Spec.clamp (b * (s / h)) 0.01 1) /\
  result_eq Qeq (calculate_ktg 0.05 2.0 4.0) (Return 0.025) /\
  result_eq Qeq (calculate_ktg 0.05 2.0 0.05) (Return 1.0).
Proof.
  split; [|split].
  - intros b s h Hb Hh. eexists. split.
    + now apply calculate_ktg_valid.
    + apply max_min_clamp. lra.
  - vm_compute. constructor. reflexivity.
  - vm_compute. constructor. reflexivity.
Qed.

(** C1 at the first scenario's input. *)
Lemma C1_witness :
  exists r, calculate_ktg 0.05 2.0 4.0 = Return r /\
            r == Spec.clamp (0.05 * (2.0 / 4.0)) 0.01 1.
Proof.
  apply (proj1 C1_returns_clamped_product 0.05 2.0 4.0).
  - split; discriminate.
  - reflexivity.
Defined.

(** C2. For every baseline in [0.01, 1.0] and positive system and
    historical times, the returned coefficient lies in [0.01, 1.0]. *)
Theorem C2_result_in_range b s h :
  0.01 <= b <= 1 -> 0 < s -> 0 < h ->
  exists r, calculate_ktg b s h = Return r /\ 0.01 <= r <= 1.
Proof.
  intros Hb _ Hh. eexists. split.
  - now apply calculate_ktg_valid.
  - apply max_min_bounds. lra.
Qed.

(** C2 at baseline 0.05, system time 2, historical time 4. *)
Lemma C2_witness :
  exists r, calculate_ktg 0.05 2.0 4.0 = Return r /\ 0.01 <= r <= 1.
Proof.
  apply (C2_result_in_range 0.05 2.0 4.0).
  - split; discriminate.
  - reflexivity.
  - reflexivity.
Defined.

(** C3. [calculate_ktg] raises exactly when historicalTime <= 0 or the
    baseline is outside [0.01, 1.0]; whatever it raises is the
    specification's InvalidArgument (a [ValueError]); on every other
    input it returns. *)
Theorem C3_raises_iff_invalid b s h :
  ((exists e, calculate_ktg b s h = Raise e) <->
     (h <= 0 \/ ~ (0.01 <= b <= 1))) /\
  (forall e, calculate_ktg b s h = Raise e -> Spec.InvalidArgument e) /\
  (~ (h <= 0 \/ ~ (0.01 <= b <= 1)) ->
     exists r, calculate_ktg b s h = Return r).
Proof.
  destruct (calculate_ktg_cases b s h)
    as [[Hh E] | [[Hh [Hb E]] | [Hh [Hb E]]]]; rewrite E.
  - split; [|split].
    + split; [now left | intros _; eauto].
    + intros e [= <-]. now eexists.
    + intro H. exfalso. apply H. now left.
  - split; [|split].
    + split; [now right | intros _; eauto].
    + intros e [= <-]. now eexists.
    + intro H. exfalso. apply H. now right.
  - split; [|split].
    + split.
      * intros [e He]. discriminate.
      * intros [H|H]; exfalso.
        -- apply (Qlt_not_le _ _ Hh H).
        -- now apply H.
    + intros e He. discriminate.
    + intros _. eauto.
Qed.

(** C6. The system time is not validated: for every systemTime <= 0
    (baseline in [0.01, 1.0], historicalTime > 0) the call returns the
    clamped raw product, which is the floor 0.01; in particular
    compute(0.5, 0, 10.0) returns 0.01. *)
Theorem C6_system_time_unchecked :
  (forall b s h, 0.01 <= b <= 1 -> s <= 0 -> 0 < h ->
     calculate_ktg b s h = Return (Py.max 0.01 (Py.min 1 (b * (s / h)))) /\
     Py.max 0.01 (Py.min 1 (b * (s / h))) == Spec.clamp (b * (s / h)) 0.01 1 /\
     calculate_ktg b s h = Return 0.01) /\
  calculate_ktg 0.5 0 10.0 = Return 0.01.
Proof.
  split; [|reflexivity].
  intros b s h Hb Hs Hh.
  pose proof (calculate_ktg_valid b s h Hb Hh) as E.
  split; [exact E|]. split.
  - apply max_min_clamp. lra.
  - rewrite E. f_equal. apply max_min_floor.
    pose proof (Qdiv_nonpos s h Hs Hh). nra.
Qed.

(** C6 at a negative system time. *)
Lemma C6_witness : calculate_ktg 0.5 (-3) 10.0 = Return 0.01.
Proof.
  apply (proj1 C6_system_time_unchecked 0.5 (-3) 10.0).
  - split; discriminate.
  - discriminate.
  - reflexivity.
Defined.

(** C7. For a fixed baseline in [0.01, 1.0]: with the system time fixed
    the coefficient is non-increasing in the historical time over
    historicalTime > 0, and with the historical time fixed (> 0) it is
    non-decreasing in the system time. *)
Theorem C7_monotone b :
  0.01 <= b <= 1 ->
  (forall s h1 h2, 0 < h1 -> h1 <= h2 ->
     exists r1 r2, calculate_ktg b s h1 = Return r1 /\
                   calculate_ktg b s h2 = Return r2 /\ r2 <= r1) /\
  (forall s1 s2 h, 0 < h -> s1 <= s2 ->
     exists r1 r2, calculate_ktg b s1 h = Return r1 /\
                   calculate_ktg b s2 h = Return r2 /\ r1 <= r2).
Proof.
  intro Hb. split.
  - intros s h1 h2 H1 H12.
    assert (H2 : 0 < h2) by lra.
    do 2 eexists. split; [|split].
    + now apply calculate_ktg_valid.
    + now apply calculate_ktg_valid.
    + destruct (Qlt_le_dec s 0) as [Hs|Hs].
      * assert (Hs' : s <= 0) by lra.
        pose proof (Qdiv_nonpos s h1 Hs' H1).
        pose proof (Qdiv_nonpos s h2 Hs' H2).
        rewrite !max_min_floor by nra. lra.
      * apply max_min_mono.
        pose proof (Qdiv_antitone s h1 h2 Hs H1 H12). nra.
  - intros s1 s2 h Hh Hs.
    do 2 eexists. split; [|split].
    + now apply calculate_ktg_valid.
    + now apply calculate_ktg_valid.
    + apply max_min_mono.
      pose proof (Qdiv_monotone s1 s2 h Hh Hs). nra.
Qed.

(** C7 at baseline 0.05: historical times 4 and 6, system times 2 and 3. *)
Lemma C7_witness :
  (exists r1 r2, calculate_ktg 0.05 2 4 = Return r1 /\
                 calculate_ktg 0.05 2 6 = Return r2 /\ r2 <= r1) /\
  (exists r1 r2, calculate_ktg 0.05 2 4 = Return r1 /\
                 calculate_ktg 0.05 3 4 = Return r2 /\ r1 <= r2).
Proof.
  assert (Hb : 0.01 <= 0.05 <= 1) by (split; discriminate).
  split.
  - apply (proj1 (C7_monotone 0.05 Hb) 2 4 6); [reflexivity | discriminate].
  - apply (proj2 (C7_monotone 0.05 Hb) 2 3 4); [reflexivity | discriminate].
Defined.

(* ----------------------------------------------------------------- *)
(** ** Comprehensions and loops *)

Section Comprehension.

Context {A B : Type} (f : A -> result B).

Lemma comprehension_Return xs ys :
  Py.comprehension f xs = Return ys <->
  Forall2 (fun x y => f x = Return y) xs ys.
Proof.
  revert ys. induction xs as [|x xs IH]; intros ys; cbn.
  - split.
    + intros [= <-]. constructor.
    + intro H. inversion H. reflexivity.
  - destruct (f x) as [y|e] eqn:Ex; cbn.
    + destruct (Py.comprehension f xs) as [ys'|e] eqn:Exs; cbn.
      * split.
        -- intros [= <-]. constructor; [exact Ex|]. now apply IH.
        -- intro H. inversion H as [|? y0 ? ys0 Hy Hys]; subst.
           apply IH in Hys. congruence.
      * split; [discriminate|].
        intro H. inversion H as [|? y0 ? ys0 Hy Hys]; subst.
        apply IH in Hys. discriminate.
    + split; [discriminate|].
      intro H. inversion H as [|? y0 ? ys0 Hy Hys]; subst. congruence.
Qed.

Lemma comprehension_total xs :
  (forall x, In x xs -> exists y, f x = Return y) ->
  exists ys, Py.comprehension f xs = Return ys.
Proof.
  induction xs as [|x xs IH]; intro H; cbn.
  - now eexists.
  - destruct (H x (or_introl eq_refl)) as [y ->]. cbn.
    destruct IH as [ys ->]; [intros; apply H; now right|].
    cbn. now eexists.
Qed.

Lemma comprehension_Raise xs e :
  Py.comprehension f xs = Raise e -> exists x, In x xs /\ f x = Raise e.
Proof.
  induction xs as [|x xs IH]; cbn; [discriminate|].
  destruct (f x) as [y|e'] eqn:Ex; cbn.
  - destruct (Py.comprehension f xs) as [ys|e'']; cbn; [discriminate|].
    intros [= <-]. destruct IH as [x' [Hin Hx']]; [reflexivity|].
    exists x'. split; [now right | exact Hx'].
  - intros [= <-]. exists x. split; [now left | exact Ex].
Qed.

Lemma comprehension_map (g : A -> B) xs :
  (forall x, In x xs -> f x = Return (g x)) ->
  Py.comprehension f xs = Return (List.map g xs).
Proof.
  induction xs as [|x xs IH]; intro H; cbn; [reflexivity|].
  rewrite (H x (or_introl eq_refl)). cbn.
  rewrite IH by (intros; apply H; now right). reflexivity.
Qed.

(** A loop that appends one computed element per iteration builds the
    comprehension of its body behind the initial accumulator. *)
Lemma for_in_append xs acc :
  Py.for_in xs (fun acc x => y <- f x ;; Return (Py.append acc y)) acc
  = (ys <- Py.comprehension f xs ;; Return (acc ++ ys)).
Proof.
  revert acc. induction xs as [|x xs IH]; intro acc; cbn.
  - now rewrite app_nil_r.
  - destruct (f x) as [y|e]; cbn; [|reflexivity].
    rewrite IH. unfold Py.append.
    destruct (Py.comprehension f xs) as [ys|e]; cbn; [|reflexivity].
    now rewrite <- app_assoc.
Qed.

End Comprehension.

(* ----------------------------------------------------------------- *)
(** ** [numpy.arange] *)

Lemma arange_nth_error start stop step i t :
  nth_error (Np.arange start stop step) i = Some t ->
  t = Spec.grid start step i /\ (i < Np.arange_len start stop step)%nat.
Proof.
  unfold Np.arange. intro H.
  assert (Hi : (i < Np.arange_len start stop step)%nat).
  { assert (Hn : nth_error
        (List.map (fun i : nat => start + inject_Z (Z.of_nat i) * step)
                  (seq 0 (Np.arange_len start stop step))) i <> None)
      by congruence.
    apply nth_error_Some in Hn. now rewrite length_map, length_seq in Hn. }
  split; [|exact Hi].
  rewrite nth_error_map, nth_error_seq in H.
  apply Nat.ltb_lt in Hi. rewrite Hi in H. cbn in H.
  now injection H as <-.
Qed.

Lemma arange_In start stop step t :
  In t (Np.arange start stop step) ->
  exists i, t = Spec.grid start step i.
Proof.
  unfold Np.arange. rewrite in_map_iff. intros [i [<- _]]. now exists i.
Qed.

(** No element when the start is not below the stop. *)
Lemma arange_empty start stop step :
  0 < step -> stop <= start -> Np.arange start stop step = [].
Proof.
  intros Hstep Hle. unfold Np.arange, Np.arange_len.
  assert (Hq : (stop - start) / step <= inject_Z 0).
  { apply Qle_shift_div_r; [exact Hstep|].
    change (inject_Z 0) with 0. lra. }
  apply Qceiling_resp_le in Hq. rewrite Qceiling_Z in Hq.
  match goal with
  | |- context [Z.to_nat ?z] => replace (Z.to_nat z) with 0%nat by lia
  end.
  reflexivity.
Qed.

(** The start is the first element whenever it is below the stop. *)
Lemma arange_cons start stop step :
  0 < step -> start < stop ->
  exists l, Np.arange start stop step = Spec.grid start step 0 :: l.
Proof.
  intros Hstep Hlt. unfold Np.arange, Np.arange_len.
  assert (Hq : 0 < (stop - start) / step).
  { apply Qlt_shift_div_l; [exact Hstep | lra]. }
  pose proof (Qle_ceiling ((stop - start) / step)) as Hc.
  assert (Hz : (0 < Qceiling ((stop - start) / step))%Z).
  { rewrite Zlt_Qlt. change (inject_Z 0) with 0. lra. }
  destruct (Z.to_nat (Qceiling ((stop - start) / step))) as [|k] eqn:Ek;
    [lia|].
  cbn [seq List.map]. now eexists.
Qed.

(** When the stop sits exactly [k] steps after the start there are [k]
    elements. *)
Lemma arange_len_exact start stop step (k : nat) :
  0 < step -> stop == start + inject_Z (Z.of_nat k) * step ->
  Np.arange_len start stop step = k.
Proof.
  intros Hstep Hstop. unfold Np.arange_len.
  assert (Hq : (stop - start) / step == inject_Z (Z.of_nat k)).
  { rewrite Hstop. field. intro E. rewrite E in Hstep. discriminate. }
  rewrite (Qceiling_comp _ _ Hq), Qceiling_Z. apply Nat2Z.id.
Qed.

Lemma grid_pos t0 step i : 0 < t0 -> 0 < step -> 0 < Spec.grid t0 step i.
Proof.
  intros H0 Hs. unfold Spec.grid.
  assert (0 <= inject_Z (Z.of_nat i)).
  { change 0 with (inject_Z 0). rewrite <- Zle_Qle. lia. }
  nra.
Qed.

Lemma inject_Z_S (n : nat) :
  inject_Z (Z.of_nat (S n)) == inject_Z (Z.of_nat n) + 1.
Proof.
  rewrite Nat2Z.inj_succ. unfold Z.succ. rewrite inject_Z_plus. reflexivity.
Qed.

(* ----------------------------------------------------------------- *)
(** ** [generate_data] *)

Lemma t_vosst_range_pos tMin tMax t :
  0 < tMin -> In t (t_vosst_range tMin tMax) -> 0 < t.
Proof.
  intros Hmin Hin. apply arange_In in Hin as [i ->].
  apply grid_pos; [exact Hmin | reflexivity].
Qed.

Lemma ktg_values_valid b s ts :
  0.01 <= b <= 1 -> (forall t, In t ts -> 0 < t) ->
  ktg_values b s ts
  = Return (List.map (fun t => Py.max 0.01 (Py.min 1 (b * (s / t)))) ts).
Proof.
  intros Hb Hts. unfold ktg_values. apply comprehension_map.
  intros t Hin. apply calculate_ktg_valid; [exact Hb | now apply Hts].
Qed.

Lemma ktg_change_percent_nonzero b ks :
  ~ b == 0 ->
  ktg_change_percent b ks = Return (List.map (Spec.percent_change b) ks).
Proof.
  intro Hb. unfold ktg_change_percent. apply comprehension_map.
  intros k _. now rewrite truediv_Return.
Qed.

Lemma generate_data_valid b s tMin tMax :
  0.01 <= b <= 1 -> 0 < tMin ->
  exists ks,
    ktg_values b s (t_vosst_range tMin tMax) = Return ks /\
    generate_data b s tMin tMax
    = Return (t_vosst_range tMin tMax, ks,
              List.map (Spec.percent_change b) ks).
Proof.
  intros Hb Hmin. unfold generate_data.
  pose proof (ktg_values_valid b s (t_vosst_range tMin tMax) Hb
                (fun t => t_vosst_range_pos tMin tMax t Hmin)) as E.
  eexists. split; [exact E|]. rewrite E. cbn [bind].
  rewrite ktg_change_percent_nonzero; [reflexivity|].
  intro E0. destruct Hb as [Hb _]. rewrite E0 in Hb. lra.
Qed.

(** On a half-hour grid the range is [tMin, tMin + 0.5, ..., tMax]. *)
Lemma t_vosst_range_grid tMin tMax (n : nat) :
  tMax == tMin + inject_Z (Z.of_nat n) * 0.5 ->
  t_vosst_range tMin tMax = List.map (Spec.grid tMin 0.5) (seq 0 (S n)).
Proof.
  intro Hmax. unfold t_vosst_range, Np.arange.
  rewrite (arange_len_exact tMin (tMax + 0.5) 0.5 (S n)); [reflexivity| |].
  - reflexivity.
  - rewrite inject_Z_S, Hmax. ring.
Qed.

Lemma sweeps_to_grid tMin tMax (n : nat) :
  tMax == tMin + inject_Z (Z.of_nat n) * 0.5 ->
  Spec.sweeps_to (List.map (Spec.grid tMin 0.5) (seq 0 (S n))) tMin tMax.
Proof.
  intro Hmax. split.
  - intros i t. rewrite nth_error_map, nth_error_seq.
    destruct (i <? S n)%nat; cbn; [|discriminate].
    intros [= <-]. reflexivity.
  - exists (Spec.grid tMin 0.5 n). split.
    + rewrite length_map, length_seq. cbn [pred].
      rewrite nth_error_map, nth_error_seq.
      assert ((n <? S n)%nat = true) as -> by (apply Nat.ltb_lt; lia).
      reflexivity.
    + unfold Spec.grid. now rewrite Hmax.
Qed.

(** C4, as stated, fails at baseline 0.05, system time 2, tMin = 1,
    tMax = 1.3: the sweep is [1.0, 1.5], so it neither contains tMax nor
    stops at it. *)
Lemma C4_counterexample :
  (exists ks ps, generate_data 0.05 2 1 1.3 = Return ([1.0; 1.5], ks, ps)) /\
  ~ Spec.sweep_contract 0.05 2 1 1.3.
Proof.
  split.
  - do 2 eexists. vm_compute. reflexivity.
  - intro H. destruct H as (ts & ks & ps & E & [_ (t & Ht & Hlast)] & _).
    + split; discriminate.
    + reflexivity.
    + reflexivity.
    + discriminate.
    + vm_compute in E. injection E as <- <- <-.
      cbn in Ht. injection Ht as <-. discriminate Hlast.
Qed.

Lemma half_hours_distance tMin tMax :
  Spec.half_hours tMin -> Spec.half_hours tMax -> tMin <= tMax ->
  exists n : nat, tMax == tMin + inject_Z (Z.of_nat n) * 0.5.
Proof.
  intros (a & _ & Ha) (c & _ & Hc) Hle.
  assert (Hac : (Z.of_nat a <= Z.of_nat c)%Z).
  { rewrite Zle_Qle. rewrite Ha, Hc in Hle. lra. }
  exists (c - a)%nat.
  rewrite Nat2Z.inj_sub by lia. unfold Z.sub.
  rewrite inject_Z_plus, inject_Z_opp, Ha, Hc. ring.
Qed.

(** C4 (amended). For every baseline in [0.01, 1.0], every system time
    and positive bounds tMin <= tMax that are both whole numbers of half
    hours (as the integer bounds of the sidebar are; below 2^50 hours,
    where doubles hold them exactly), [generate_data] returns the times
    tMin, tMin + 0.5, ..., up to and including tMax, and the result at
    each time is [calculate_ktg baseline systemTime time]; in particular
    generate_data(0.05, 2.0, 4, 6) yields times [4.0, 4.5, 5.0, 5.5, 6.0]
    with results [0.025, 0.0222, 0.02, 0.0182, 0.0167] to four
    decimals. *)
Theorem C4_sweep_on_half_hour_grid :
  (forall b s tMin tMax,
     0.01 <= b <= 1 ->
     Spec.half_hours tMin -> Spec.half_hours tMax ->
     0 < tMin -> tMin <= tMax ->
     exists times results percents (n : nat),
       generate_data b s tMin tMax = Return (times, results, percents) /\
       tMax == tMin + inject_Z (Z.of_nat n) * 0.5 /\
       times = List.map (Spec.grid tMin 0.5) (seq 0 (S n)) /\
       Spec.sweeps_to times tMin tMax /\
       Spec.computed_at b s times results) /\
  (exists times results percents,
     generate_data 0.05 2.0 4 6 = Return (times, results, percents) /\
     seq_eq times [4.0; 4.5; 5.0; 5.5; 6.0] /\
     Forall2 Spec.agrees_to_4dp results
             [0.025; 0.0222; 0.02; 0.0182; 0.0167]).
Proof.
  split.
  - intros b s tMin tMax Hb Hhmin Hhmax Hmin Hle.
    destruct (half_hours_distance tMin tMax Hhmin Hhmax Hle) as [n Hmax].
    destruct (generate_data_valid b s tMin tMax Hb Hmin) as (ks & Eks & E).
    rewrite (t_vosst_range_grid tMin tMax n Hmax) in E, Eks.
    do 3 eexists. exists n. split; [exact E|]. split; [exact Hmax|].
    split; [reflexivity|]. split.
    + now apply sweeps_to_grid.
    + unfold Spec.computed_at. now apply comprehension_Return.
  - do 3 eexists. split; [vm_compute; reflexivity|]. split.
    + repeat constructor.
    + repeat constructor; discriminate.
Qed.

(** C4 (amended) at the third scenario's input: 4 and 6 are 8 and 12
    half hours. *)
Lemma C4_witness :
  exists times results percents (n : nat),
    generate_data 0.05 2.0 4 6 = Return (times, results, percents) /\
    6 == 4 + inject_Z (Z.of_nat n) * 0.5 /\
    times = List.map (Spec.grid 4 0.5) (seq 0 (S n)) /\
    Spec.sweeps_to times 4 6 /\
    Spec.computed_at 0.05 2.0 times results.
Proof.
  apply (proj1 C4_sweep_on_half_hour_grid 0.05 2.0 4 6).
  - split; discriminate.
  - exists 8%nat. split; reflexivity.
  - exists 12%nat. split; reflexivity.
  - reflexivity.
  - discriminate.
Defined.

(** C5, as stated, fails: the percent step of [generate_data] has no
    guard of its own.  Handed the result 0.01 with a zero baseline it
    divides by zero, where the guarded expression of lines 207 and 402
    yields 0. *)
Lemma C5_counterexample :
  ktg_change_percent 0 [0.01] = Raise ZeroDivisionError /\
  improvement 0 0.01 = Return 0 /\
  ~ Spec.percent_step_guarded.
Proof.
  split; [reflexivity|]. split; [reflexivity|].
  intro H. destruct (H [0.01] 0) as [ps E]; [reflexivity|]. discriminate E.
Qed.

(** C5 (amended). For every point of a sweep the percent change equals
    (result - baseline) / baseline * 100.  [generate_data] does not guard
    that division itself; the division by zero is unreachable because
    [calculate_ktg] rejects the baseline before any percent change is
    computed: whatever [generate_data] raises, on any input, is an
    InvalidArgument and never a ZeroDivisionError; for a baseline in
    [0.01, 1.0] and a positive tMin it returns; and for a zero baseline
    over a non-empty positive range it raises the baseline's
    InvalidArgument. *)
Theorem C5_percent_change_unreachable_zero b s tMin tMax :
  (forall times results percents,
     generate_data b s tMin tMax = Return (times, results, percents) ->
     percents = List.map (Spec.percent_change b) results) /\
  (forall e, generate_data b s tMin tMax = Raise e ->
     Spec.InvalidArgument e) /\
  (0.01 <= b <= 1 -> 0 < tMin ->
     exists times results percents,
       generate_data b s tMin tMax = Return (times, results, percents)) /\
  (b == 0 -> 0 < tMin -> tMin <= tMax ->
     generate_data b s tMin tMax = Raise (ValueError msg_ktg_zakl)).
Proof.
  assert (Hzero : b == 0 -> 0 < tMin -> tMin <= tMax ->
            ktg_values b s (t_vosst_range tMin tMax)
            = Raise (ValueError msg_ktg_zakl)).
  { intros Hb Hmin Hle. unfold ktg_values, t_vosst_range.
    destruct (arange_cons tMin (tMax + 0.5) 0.5) as [l ->];
      [reflexivity | lra |].
    cbn [Py.comprehension].
    rewrite calculate_ktg_bad_baseline; [reflexivity | |].
    - apply grid_pos; [exact Hmin | reflexivity].
    - rewrite Hb. intros [H _]. lra. }
  assert (Hcalc : forall ks,
            ktg_values b s (t_vosst_range tMin tMax) = Return ks ->
            ks = [] \/ ~ b == 0).
  { intros ks E. unfold ktg_values in E. apply comprehension_Return in E.
    destruct E as [|t k ts ks' Hk _]; [now left|]. right.
    destruct (calculate_ktg_cases b s t)
      as [[_ E] | [[_ [_ E]] | [_ [[Hb _] _]]]]; try congruence.
    intro E0. rewrite E0 in Hb. lra. }
  unfold generate_data.
  destruct (ktg_values b s (t_vosst_range tMin tMax)) as [ks|e0] eqn:Eks;
    cbn [bind].
  - assert (Eps : ktg_change_percent b ks
                  = Return (List.map (Spec.percent_change b) ks)).
    { destruct (Hcalc ks eq_refl) as [-> | Hb]; [reflexivity|].
      now apply ktg_change_percent_nonzero. }
    rewrite Eps. cbn [bind]. split; [|split; [|split]].
    + now intros ts ks' ps [= <- <- <-].
    + discriminate.
    + intros _ _. now do 3 eexists.
    + intros Hb Hmin Hle. discriminate (Hzero Hb Hmin Hle).
  - split; [|split; [|split]].
    + discriminate.
    + intros e [= <-]. unfold ktg_values in Eks.
      apply comprehension_Raise in Eks as [t [_ Et]].
      now apply (calculate_ktg_Raise b s t).
    + intros Hb Hmin.
      destruct (generate_data_valid b s tMin tMax Hb Hmin) as (ks & E & _).
      congruence.
    + intros Hb Hmin Hle. now injection (Hzero Hb Hmin Hle) as ->.
Qed.

(** C10. The precondition tMin <= tMax is never checked: whenever
    tMin >= tMax + 0.5 the call raises nothing and returns three empty
    sequences, whatever the baseline and the system time. *)
Theorem C10_reversed_bounds_empty b s tMin tMax :
  tMax + 0.5 <= tMin -> generate_data b s tMin tMax = Return ([], [], []).
Proof.
  intro H. unfold generate_data, t_vosst_range.
  rewrite arange_empty; [reflexivity | reflexivity | exact H].
Qed.

(** C10 at reversed bounds 6 and 4. *)
Lemma C10_witness : generate_data 0.05 2.0 6 4 = Return ([], [], []).
Proof.
  apply (C10_reversed_bounds_empty 0.05 2.0 6 4). discriminate.
Defined.

(* ----------------------------------------------------------------- *)
(** ** Outcomes depend on the numbers passed, not on how they are written

    A rational has many numerator/denominator pairs; the embedded
    functions respect [==].  (That the Python functions are pure is read
    off their bodies, which use their parameters and locals only; in
    this embedding it is not a theorem but the form of the
    definitions.) *)

#[local] Instance le_compat : Proper (Qeq ==> Qeq ==> eq) Py.le.
Proof. intros x x' Hx y y' Hy. unfold Py.le. now rewrite Hx, Hy. Qed.

#[local] Instance lt_compat : Proper (Qeq ==> Qeq ==> eq) Py.lt.
Proof. intros x x' Hx y y' Hy. unfold Py.lt. now rewrite Hx, Hy. Qed.

#[local] Instance min_compat : Proper (Qeq ==> Qeq ==> Qeq) Py.min.
Proof.
  intros a a' Ha b b' Hb. unfold Py.min. rewrite Ha, Hb.
  now destruct (Py.lt b' a').
Qed.

#[local] Instance max_compat : Proper (Qeq ==> Qeq ==> Qeq) Py.max.
Proof.
  intros a a' Ha b b' Hb. unfold Py.max, Py.gt. rewrite Ha, Hb.
  now destruct (Py.lt a' b').
Qed.

Lemma truediv_compat x x' y y' :
  x == x' -> y == y' ->
  result_eq Qeq (Py.truediv x y) (Py.truediv x' y').
Proof.
  intros Hx Hy. unfold Py.truediv. rewrite Hy.
  destruct (Qeq_bool y' 0); constructor. now rewrite Hx, Hy.
Qed.

Lemma calculate_ktg_compat b b' s s' h h' :
  b == b' -> s == s' -> h == h' ->
  result_eq Qeq (calculate_ktg b s h) (calculate_ktg b' s' h').
Proof.
  intros Hb Hs Hh. unfold calculate_ktg. rewrite Hb, Hh.
  destruct (Py.le h' 0); [constructor|].
  destruct (negb (Py.le 0.01 b' && Py.le b' 1)); [constructor|].
  destruct (truediv_compat s s' h h' Hs Hh) as [q q' Hq|e]; cbn [bind];
    constructor.
  now rewrite Hb, Hq.
Qed.

Lemma comprehension_compat {A B : Type} (RA : A -> A -> Prop)
  (RB : B -> B -> Prop) (f g : A -> result B) xs ys :
  (forall x y, RA x y -> result_eq RB (f x) (g y)) ->
  Forall2 RA xs ys ->
  result_eq (Forall2 RB) (Py.comprehension f xs) (Py.comprehension g ys).
Proof.
  intros Hfg Hxs. induction Hxs as [|x y xs ys Hxy _ IH]; cbn.
  - repeat constructor.
  - destruct (Hfg x y Hxy) as [u v Huv|e]; cbn [bind]; [|constructor].
    destruct IH as [us vs Huvs|e]; cbn [bind]; constructor.
    now constructor.
Qed.

Lemma arange_compat start start' stop stop' step step' :
  start == start' -> stop == stop' -> step == step' ->
  seq_eq (Np.arange start stop step) (Np.arange start' stop' step').
Proof.
  intros H1 H2 H3. unfold Np.arange, Np.arange_len.
  assert (Hq : (stop - start) / step == (stop' - start') / step')
    by now rewrite H1, H2, H3.
  rewrite (Qceiling_comp _ _ Hq).
  induction (seq 0 (Z.to_nat (Qceiling ((stop' - start') / step'))))
    as [|i l IH]; cbn; constructor; [|exact IH].
  now rewrite H1, H3.
Qed.

Lemma generate_data_compat b b' s s' tMin tMin' tMax tMax' :
  b == b' -> s == s' -> tMin == tMin' -> tMax == tMax' ->
  result_eq sweep_eq (generate_data b s tMin tMax)
                     (generate_data b' s' tMin' tMax').
Proof.
  intros Hb Hs Hmin Hmax. unfold generate_data.
  assert (Hts : seq_eq (t_vosst_range tMin tMax) (t_vosst_range tMin' tMax')).
  { apply arange_compat; [exact Hmin | now rewrite Hmax | reflexivity]. }
  assert (Hks : result_eq seq_eq
                  (ktg_values b s (t_vosst_range tMin tMax))
                  (ktg_values b' s' (t_vosst_range tMin' tMax'))).
  { apply (comprehension_compat Qeq Qeq); [|exact Hts].
    intros t t' Ht. now apply calculate_ktg_compat. }
  destruct Hks as [ks ks' Hks|e]; cbn [bind]; [|constructor].
  assert (Hps : result_eq seq_eq (ktg_change_percent b ks)
                                 (ktg_change_percent b' ks')).
  { apply (comprehension_compat Qeq Qeq); [|exact Hks].
    intros k k' Hk.
    destruct (truediv_compat (k - b) (k' - b') b b') as [q q' Hq|e];
      [now rewrite Hk, Hb | exact Hb | |]; cbn [bind]; constructor.
    now rewrite Hq. }
  destruct Hps as [ps ps' Hps|e]; cbn [bind]; constructor.
  repeat split; assumption.
Qed.

(* ----------------------------------------------------------------- *)
(** ** The heat-map grid *)

Lemma for_in_ext {A S : Type} (body body' : S -> A -> result S) xs st :
  (forall st x, body st x = body' st x) ->
  Py.for_in xs body st = Py.for_in xs body' st.
Proof.
  intro H. revert st. induction xs as [|x xs IH]; intro st; cbn.
  - reflexivity.
  - rewrite H. destruct (body' st x); cbn; [apply IH | reflexivity].
Qed.

Lemma bind_Return_nil {A : Type} (m : result (list A)) :
  (ys <- m ;; Return ([] ++ ys)) = m.
Proof. now destruct m. Qed.

(** The nested loops build the comprehension of comprehensions. *)
Lemma heatmap_data_comprehension b tMin tMax :
  heatmap_data b tMin tMax
  = Py.comprehension
      (fun t_sist =>
         Py.comprehension (fun t_ishod => calculate_ktg b t_sist t_ishod)
                          (t_ishod_range tMin tMax))
      t_sist_range.
Proof.
  unfold heatmap_data.
  rewrite <- (bind_Return_nil (Py.comprehension _ t_sist_range)).
  rewrite <- for_in_append.
  apply for_in_ext. intros hm t_sist.
  now rewrite for_in_append, bind_Return_nil.
Qed.

Lemma t_ishod_range_pos tMin tMax t :
  0 < tMin -> In t (t_ishod_range tMin tMax) -> 0 < t.
Proof.
  intros Hmin Hin. apply arange_In in Hin as [i ->].
  apply grid_pos; [exact Hmin | reflexivity].
Qed.

(** C9. The heat map sweeps the system recovery time over the small
    range 1, 1.5, ..., 5.5 (step 0.5) and the historical recovery time
    over tMin, tMin + 1, ... (step 1.0), which for bounds a whole number
    of hours apart is tMin, ..., tMax; the grid has one row per system
    time and one cell per historical time, each cell being
    [calculate_ktg baseline systemTimeOfRow historicalTimeOfColumn] and
    nothing else; it is produced whenever the baseline is in [0.01, 1.0]
    and tMin is positive. *)
Theorem C9_heatmap_cells b tMin tMax :
  seq_eq t_sist_range [1; 1.5; 2; 2.5; 3; 3.5; 4; 4.5; 5; 5.5] /\
  t_sist_range = List.map (Spec.grid 1 0.5) (seq 0 10) /\
  (forall i t, nth_error (t_ishod_range tMin tMax) i = Some t ->
     t = Spec.grid tMin 1 i) /\
  (forall n : nat, tMax == tMin + inject_Z (Z.of_nat n) ->
     t_ishod_range tMin tMax = List.map (Spec.grid tMin 1) (seq 0 (S n)) /\
     Spec.grid tMin 1 n == tMax) /\
  (forall cells,
     heatmap_data b tMin tMax = Return cells <->
     Forall2 (fun t_sist row =>
                Forall2 (fun t_ishod cell =>
                           calculate_ktg b t_sist t_ishod = Return cell)
                        (t_ishod_range tMin tMax) row)
             t_sist_range cells) /\
  (0.01 <= b <= 1 -> 0 < tMin ->
     exists cells, heatmap_data b tMin tMax = Return cells).
Proof.
  split; [|split; [|split; [|split; [|split]]]].
  - vm_compute. repeat constructor.
  - reflexivity.
  - intros i t H. now apply arange_nth_error in H.
  - intros n Hmax. split.
    + unfold t_ishod_range, Np.arange.
      rewrite (arange_len_exact tMin (tMax + 1) 1 (S n));
        [reflexivity | reflexivity |].
      rewrite inject_Z_S, Hmax. ring.
    + unfold Spec.grid. rewrite Hmax. ring.
  - intro cells. rewrite heatmap_data_comprehension, comprehension_Return.
    split; intro H.
    + eapply Forall2_impl; [|exact H].
      intros t_sist row Hrow. now apply comprehension_Return.
    + eapply Forall2_impl; [|exact H].
      intros t_sist row Hrow. now apply comprehension_Return.
  - intros Hb Hmin. rewrite heatmap_data_comprehension.
    apply comprehension_total. intros t_sist _.
    apply comprehension_total. intros t_ishod Hin.
    eexists. apply calculate_ktg_valid; [exact Hb|].
    now apply (t_ishod_range_pos tMin tMax).
Qed.

(** C9 at baseline 0.05 and bounds 4 and 6: the grid is produced. *)
Lemma C9_witness :
  exists cells, heatmap_data 0.05 4 6 = Return cells.
Proof.
  apply (proj2 (proj2 (proj2 (proj2 (proj2 (C9_heatmap_cells 0.05 4 6)))))).
  - split; discriminate.
  - reflexivity.
Defined.

(* ----------------------------------------------------------------- *)
(** ** The scalar function on binary64

    The rational model leaves rounding, infinities and NaN out.  On
    doubles the scenarios evaluate to the same values, the result stays
    in [0.01, 1] for every triple of doubles on which the call returns
    (a NaN raw value fails [x < 1] and ends as 1), and the division
    still cannot raise. *)

Section Binary64Facts.

Import PrimFloat SpecFloat FloatAxioms.
#[local] Set Warnings "-inexact-float".
Local Open Scope float_scope.

Example binary64_scenario_1 :
  Binary64.calculate_ktg 0.05 2.0 4.0 = Return 0.025.
Proof. reflexivity. Qed.

Example binary64_scenario_2 :
  Binary64.calculate_ktg 0.05 2.0 0.05 = Return 1.
Proof. reflexivity. Qed.

Example binary64_scenario_4 :
  Binary64.calculate_ktg 0.5 0 10.0 = Return 0.01.
Proof. reflexivity. Qed.

Example binary64_rejects :
  Binary64.calculate_ktg 0.05 2.0 0
    = Raise (ValueError msg_t_vosst_nov_ishod) /\
  Binary64.calculate_ktg 0.05 2.0 (-5)
    = Raise (ValueError msg_t_vosst_nov_ishod) /\
  Binary64.calculate_ktg 0 2.0 4.0 = Raise (ValueError msg_ktg_zakl) /\
  Binary64.calculate_ktg 1.5 2.0 4.0 = Raise (ValueError msg_ktg_zakl).
Proof. repeat split. Qed.

Lemma binary64_ltb_leb x y : (x <? y) = true -> (x <=? y) = true.
Proof.
  rewrite ltb_spec, leb_spec. unfold SFltb, SFleb.
  destruct (SFcompare _ _) as [[]|]; congruence.
Qed.

Lemma binary64_eqb_leb x y : (x =? y) = true -> (x <=? y) = true.
Proof.
  rewrite eqb_spec, leb_spec. unfold SFeqb, SFleb.
  destruct (SFcompare _ _) as [[]|]; congruence.
Qed.

Lemma binary64_max_min_bounds x :
  (0.01 <=? Binary64.max 0.01 (Binary64.min 1 x)) = true /\
  (Binary64.max 0.01 (Binary64.min 1 x) <=? 1) = true.
Proof.
  unfold Binary64.max, Binary64.min.
  destruct (x <? 1) eqn:E1.
  - destruct (0.01 <? x) eqn:E2.
    + split; now apply binary64_ltb_leb.
    + split; reflexivity.
  - split; reflexivity.
Qed.

Lemma binary64_result_in_range b s h r :
  Binary64.calculate_ktg b s h = Return r ->
  (0.01 <=? r) = true /\ (r <=? 1) = true.
Proof.
  unfold Binary64.calculate_ktg, Binary64.truediv.
  destruct (h <=? 0); [discriminate|].
  destruct (negb _); [discriminate|].
  destruct (h =? 0); cbn [bind]; [discriminate|].
  intros [= <-]. apply binary64_max_min_bounds.
Qed.

Lemma binary64_Raise b s h e :
  Binary64.calculate_ktg b s h = Raise e -> Spec.InvalidArgument e.
Proof.
  unfold Binary64.calculate_ktg, Binary64.truediv.
  destruct (h <=? 0) eqn:E1; [intros [= <-]; now eexists|].
  destruct (negb _); [intros [= <-]; now eexists|].
  destruct (h =? 0) eqn:E2; cbn [bind]; [|discriminate].
  apply binary64_eqb_leb in E2. congruence.
Qed.

End Binary64Facts.

(* ================================================================= *)
(** * Beyond the two core functions: the sweep as the tabs use it *)

(** ** Shape of the sweep *)

Lemma nth_error_map_seq {A : Type} (f : nat -> A) n i :
  nth_error (List.map f (seq 0 n)) i
  = if (i <? n)%nat then Some (f i) else None.
Proof.
  rewrite nth_error_map, nth_error_seq. now destruct (i <? n)%nat.
Qed.

Lemma grid_mono t0 step i j :
  0 <= step -> (i <= j)%nat -> Spec.grid t0 step i <= Spec.grid t0 step j.
Proof.
  intros Hs Hij. unfold Spec.grid.
  assert (inject_Z (Z.of_nat i) <= inject_Z (Z.of_nat j))
    by (rewrite <- Zle_Qle; lia).
  nra.
Qed.

Lemma grid_0 t0 step : Spec.grid t0 step 0 == t0.
Proof. unfold Spec.grid. cbn. ring. Qed.

(** The coefficient is non-increasing in the historical time. *)
Lemma ktg_at_antitone b s h1 h2 :
  0 <= b -> 0 < h1 -> h1 <= h2 -> ktg_at b s h2 <= ktg_at b s h1.
Proof.
  intros Hb H1 H12. unfold ktg_at.
  assert (H2 : 0 < h2) by lra.
  destruct (Qlt_le_dec s 0) as [Hs|Hs].
  - assert (Hs' : s <= 0) by lra.
    pose proof (Qdiv_nonpos s h1 Hs' H1).
    pose proof (Qdiv_nonpos s h2 Hs' H2).
    rewrite !max_min_floor by nra. lra.
  - apply max_min_mono.
    pose proof (Qdiv_antitone s h1 h2 Hs H1 H12). nra.
Qed.

Lemma ktg_at_bounds b s t : 0.01 <= ktg_at b s t <= 1.
Proof. unfold ktg_at. apply max_min_bounds. lra. Qed.

Lemma ktg_at_compat b s t t' : t == t' -> ktg_at b s t == ktg_at b s t'.
Proof.
  intro Ht. unfold ktg_at. now rewrite Ht.
Qed.

Lemma calculate_ktg_Return b s t k :
  calculate_ktg b s t = Return k ->
  0 < t /\ 0.01 <= b <= 1 /\ k = ktg_at b s t.
Proof.
  destruct (calculate_ktg_cases b s t)
    as [[_ E] | [[_ [_ E]] | [Ht [Hb E]]]]; rewrite E; try discriminate.
  intros [= <-]. now repeat split.
Qed.

Lemma Forall2_nth_r {A B : Type} (R : A -> B -> Prop) xs ys i y :
  Forall2 R xs ys -> nth_error ys i = Some y ->
  exists x, nth_error xs i = Some x /\ R x y.
Proof.
  intro H. revert i. induction H as [|x0 y0 xs ys Hxy _ IH]; intros i Hi.
  - destruct i; discriminate.
  - destruct i as [|i]; cbn in *.
    + injection Hi as <-. now exists x0.
    + now apply IH.
Qed.

(** What a returned sweep consists of. *)
Lemma generate_data_Return b s tMin tMax ts ks ps :
  generate_data b s tMin tMax = Return (ts, ks, ps) ->
  ts = t_vosst_range tMin tMax /\
  Forall2 (fun t k => calculate_ktg b s t = Return k) ts ks /\
  (ks = [] /\ ps = [] \/
   0.01 <= b <= 1 /\ ps = List.map (Spec.percent_change b) ks).
Proof.
  unfold generate_data.
  destruct (ktg_values b s (t_vosst_range tMin tMax)) as [ks'|e] eqn:Eks;
    cbn [bind]; [|discriminate].
  destruct (ktg_change_percent b ks') as [ps'|e] eqn:Eps;
    cbn [bind]; [|discriminate].
  intros [= <- <- <-]. split; [reflexivity|].
  unfold ktg_values in Eks. apply comprehension_Return in Eks.
  split; [exact Eks|].
  destruct Eks as [|t k ts' ks'' Hk Hrest].
  - left. cbn in Eps. now injection Eps as <-.
  - right. apply calculate_ktg_Return in Hk as (_ & Hb & _).
    split; [exact Hb|].
    rewrite ktg_change_percent_nonzero in Eps; [congruence|].
    intro E0. destruct Hb as [Hb _]. rewrite E0 in Hb. lra.
Qed.

(** Every coefficient of a returned sweep is the value at its grid
    point, which is positive, and the baseline was accepted. *)
Lemma returned_sweep_points b s tMin tMax ts ks ps i k :
  generate_data b s tMin tMax = Return (ts, ks, ps) ->
  nth_error ks i = Some k ->
  nth_error ts i = Some (Spec.grid tMin 0.5 i) /\
  0 < Spec.grid tMin 0.5 i /\ 0.01 <= b <= 1 /\
  k = ktg_at b s (Spec.grid tMin 0.5 i).
Proof.
  intros E Hi. apply generate_data_Return in E as (Hts & Hks & _).
  destruct (Forall2_nth_r _ _ _ _ _ Hks Hi) as (t & Ht & Hcalc).
  pose proof Ht as Ht'. rewrite Hts in Ht'.
  apply arange_nth_error in Ht' as [-> _].
  split; [exact Ht|]. now apply calculate_ktg_Return.
Qed.

Lemma returned_sweep_nonincreasing b s tMin tMax ts ks ps :
  generate_data b s tMin tMax = Return (ts, ks, ps) -> nonincreasing ks.
Proof.
  intros E i j x y Hij Hx Hy.
  apply (returned_sweep_points _ _ _ _ _ _ _ _ _ E) in Hx
    as (_ & Hi & Hb & ->).
  apply (returned_sweep_points _ _ _ _ _ _ _ _ _ E) in Hy
    as (_ & _ & _ & ->).
  apply ktg_at_antitone; [lra | exact Hi |].
  apply grid_mono; [discriminate | exact Hij].
Qed.

Lemma sweep_nonincreasing_aux b s tMin tMax ts ks ps :
  generate_data b s tMin tMax = Return (ts, ks, ps) ->
  Forall (fun k => 0.01 <= k <= 1) ks.
Proof.
  intro E. apply generate_data_Return in E as (_ & Hks & _).
  induction Hks as [|t k ts' ks' Hk _ IH]; constructor; [|exact IH].
  apply calculate_ktg_Return in Hk as (_ & _ & ->). apply ktg_at_bounds.
Qed.

(** X2. Whenever the sweep returns, its coefficients never increase
    along the sweep and all lie in [0.01, 1]; its percent changes never
    increase either and all lie in [-99, 9900]. *)
Theorem sweep_nonincreasing b s tMin tMax ts ks ps :
  generate_data b s tMin tMax = Return (ts, ks, ps) ->
  nonincreasing ks /\ Forall (fun k => 0.01 <= k <= 1) ks /\
  nonincreasing ps /\ Forall (fun p => -99 <= p <= 9900) ps.
Proof.
  intro E. apply generate_data_Return in E as (Hts & Hks & Hps).
  assert (Hk : forall i k, nth_error ks i = Some k ->
                 0 < Spec.grid tMin 0.5 i /\ 0.01 <= b <= 1 /\
                 k = ktg_at b s (Spec.grid tMin 0.5 i)).
  { intros i k Hi.
    destruct (Forall2_nth_r _ _ _ _ _ Hks Hi) as (t & Ht & Hcalc).
    rewrite Hts in Ht. apply arange_nth_error in Ht as [-> _].
    now apply calculate_ktg_Return. }
  assert (Hmono : nonincreasing ks).
  { intros i j x y Hij Hx Hy.
    apply Hk in Hx as (Hi & Hb & ->). apply Hk in Hy as (Hj & _ & ->).
    apply ktg_at_antitone; [lra | exact Hi |].
    apply grid_mono; [discriminate | exact Hij]. }
  assert (Hrange : Forall (fun k => 0.01 <= k <= 1) ks).
  { apply Forall_forall. intros k Hin.
    apply In_nth_error in Hin as [i Hi].
    apply Hk in Hi as (_ & _ & ->). apply ktg_at_bounds. }
  split; [exact Hmono|]. split; [exact Hrange|].
  destruct Hps as [[-> ->] | [Hb ->]].
  - split; [|constructor].
    intros i j x y _ Hx. destruct i; discriminate Hx.
  - assert (Hb0 : 0 < b) by lra.
    assert (Hdiv : forall k, Spec.percent_change b k * b == (k - b) * 100).
    { intro k. unfold Spec.percent_change. field.
      intro E0. rewrite E0 in Hb0. discriminate. }
    split.
    + intros i j x y Hij. rewrite !nth_error_map.
      destruct (nth_error ks i) as [ki|] eqn:Ei; [|discriminate].
      destruct (nth_error ks j) as [kj|] eqn:Ej; [|discriminate].
      cbn. intros [= <-] [= <-].
      pose proof (Hmono i j ki kj Hij Ei Ej) as Hle.
      pose proof (Hdiv ki). pose proof (Hdiv kj). nra.
    + apply Forall_map. eapply Forall_impl; [|exact Hrange].
      cbn. intros k Hk'. pose proof (Hdiv k). split; nra.
Qed.

Lemma sweep_nonincreasing_witness :
  exists ts ks ps,
    generate_data 0.05 2 4 6 = Return (ts, ks, ps) /\
    nonincreasing ks /\ Forall (fun k => 0.01 <= k <= 1) ks /\
    nonincreasing ps /\ Forall (fun p => -99 <= p <= 9900) ps.
Proof.
  do 3 eexists. split; [vm_compute; reflexivity|].
  eapply (sweep_nonincreasing 0.05 2 4 6). vm_compute. reflexivity.
Defined.



(* ----------------------------------------------------------------- *)
(** ** The efficiency indicator, the report and the exported summary *)

Lemma generate_data_explicit b s tMin tMax :
  0.01 <= b <= 1 -> 0 < tMin ->
  generate_data b s tMin tMax
  = Return (t_vosst_range tMin tMax,
            List.map (ktg_at b s) (t_vosst_range tMin tMax),
            List.map (Spec.percent_change b)
                     (List.map (ktg_at b s) (t_vosst_range tMin tMax))).
Proof.
  intros Hb Hmin.
  destruct (generate_data_valid b s tMin tMax Hb Hmin) as (ks & Eks & E).
  rewrite ktg_values_valid in Eks;
    [|exact Hb | intros t; now apply t_vosst_range_pos].
  injection Eks as <-. exact E.
Qed.

(** Scanning for the maximum keeps a head that nothing exceeds; scanning
    for the minimum ends on an element of the list below all others. *)
Lemma fold_left_max_head xs x :
  (forall y, In y xs -> y <= x) -> fold_left Py.max xs x = x.
Proof.
  induction xs as [|y xs IH]; intro H; cbn; [reflexivity|].
  unfold Py.max at 2, Py.gt.
  assert (Py.lt x y = false) as ->
    by (apply lt_false; apply H; now left).
  apply IH. intros; apply H; now right.
Qed.

Lemma fold_left_min_le xs x y :
  In y (x :: xs) -> fold_left Py.min xs x <= y.
Proof.
  revert x y. induction xs as [|z xs IH]; intros x y Hin; cbn.
  - destruct Hin as [<-|[]]. lra.
  - assert (Hm : Py.min x z <= x /\ Py.min x z <= z).
    { unfold Py.min. cases_lt; lra. }
    pose proof (IH (Py.min x z) (Py.min x z) (or_introl eq_refl)) as H0.
    destruct Hin as [<-|[<-|Hin]]; [lra | lra |].
    apply IH. now right.
Qed.

Lemma fold_left_min_In xs x : In (fold_left Py.min xs x) (x :: xs).
Proof.
  revert x. induction xs as [|z xs IH]; intro x; cbn; [now left|].
  destruct (IH (Py.min x z)) as [E|Hin].
  - unfold Py.min in E at 1. destruct (Py.lt z x).
    + right; left. exact E.
    + left. exact E.
  - right; right. exact Hin.
Qed.

Lemma nonincreasing_head x xs y :
  nonincreasing (x :: xs) -> In y xs -> y <= x.
Proof.
  intros H Hin. apply In_nth_error in Hin as [i Hi].
  apply (H 0%nat (S i) x y); [lia | reflexivity | exact Hi].
Qed.

Lemma improvement_pos b k :
  0 < b -> improvement b k = Return (Spec.percent_change b k).
Proof.
  intro Hb. unfold improvement, Py.gt.
  assert (Py.lt 0 b = true) as -> by now apply lt_true.
  rewrite truediv_Return; [reflexivity|].
  intro E. rewrite E in Hb. discriminate.
Qed.

Lemma percent_change_mul b k :
  0 < b -> Spec.percent_change b k * b == (k - b) * 100.
Proof.
  intro Hb. unfold Spec.percent_change. field.
  intro E. rewrite E in Hb. discriminate.
Qed.

(** A returned sweep that is not empty starts at tMin, and its first
    coefficient, the one at tMin, is its maximum. *)
Lemma returned_sweep_head b s tMin tMax ts ks ps :
  generate_data b s tMin tMax = Return (ts, ks, ps) -> ks <> [] ->
  exists k0 rest,
    ks = k0 :: rest /\ 0.01 <= b <= 1 /\ 0 < tMin /\
    nth_error ts 0 = Some (Spec.grid tMin 0.5 0) /\
    k0 == ktg_at b s tMin /\
    (forall k, In k ks -> k <= k0) /\
    fold_left Py.max rest k0 = k0.
Proof.
  intros E Hne. destruct ks as [|k0 rest]; [contradiction|].
  destruct (returned_sweep_points _ _ _ _ _ _ _ 0%nat k0 E eq_refl)
    as (Hts & Hpos & Hb & Hk0).
  pose proof (returned_sweep_nonincreasing _ _ _ _ _ _ _ E) as Hmono.
  pose proof (grid_0 tMin 0.5) as H0.
  assert (Hrest : forall k, In k rest -> k <= k0)
    by (intros k Hk; now apply (nonincreasing_head _ _ _ Hmono)).
  exists k0, rest. split; [reflexivity|]. split; [exact Hb|].
  split; [lra|]. split; [exact Hts|]. split; [|split].
  - rewrite Hk0. now apply ktg_at_compat.
  - intros k [<-|Hk]; [lra | now apply Hrest].
  - now apply fold_left_max_head.
Qed.

(** X3. With reversed bounds (tMin >= tMax + 0.5) the sweep is empty and
    everything that takes its maximum raises [ValueError]: the
    efficiency indicator (line 206), the exported summary (line 400)
    and the report's improvement (line 479). *)
Theorem empty_sweep_has_no_maximum b s tMin tMax :
  tMax + 0.5 <= tMin ->
  exists ts ks ps,
    generate_data b s tMin tMax = Return (ts, ks, ps) /\
    (exists msg, efficiency b ks = Raise (ValueError msg)) /\
    (exists msg, export_df b ks = Raise (ValueError msg)) /\
    (exists msg, report_improvement b ks = Raise (ValueError msg)).
Proof.
  intro H. exists [], [], []. split.
  - unfold generate_data, t_vosst_range.
    rewrite arange_empty; [reflexivity | reflexivity | exact H].
  - repeat split; eexists; reflexivity.
Qed.

Lemma empty_sweep_has_no_maximum_witness :
  exists ts ks ps,
    generate_data 0.05 2 24 4 = Return (ts, ks, ps) /\
    (exists msg, efficiency 0.05 ks = Raise (ValueError msg)) /\
    (exists msg, export_df 0.05 ks = Raise (ValueError msg)) /\
    (exists msg, report_improvement 0.05 ks = Raise (ValueError msg)).
Proof.
  apply (empty_sweep_has_no_maximum 0.05 2 24 4). discriminate.
Defined.

(** X4. Whenever the sweep returned is not empty, the efficiency
    indicator is computed from its first coefficient, the one
    [calculate_ktg] returns at tMin, which no other coefficient of the
    sweep exceeds: the baseline is positive, so the test [ktg_zakl > 0]
    of line 207 passes, the improvement is the percent change of that
    coefficient, and the report's unguarded expression (line 479)
    yields the same number. *)
Theorem efficiency_from_first_point b s tMin tMax ts ks ps :
  generate_data b s tMin tMax = Return (ts, ks, ps) -> ks <> [] ->
  exists k0 lvl,
    nth_error ks 0 = Some k0 /\
    result_eq Qeq (calculate_ktg b s tMin) (Return k0) /\
    Forall (fun k => k <= k0) ks /\
    Py.gt b 0 = true /\
    efficiency b ks = Return (Spec.percent_change b k0, lvl) /\
    report_improvement b ks = Return (Spec.percent_change b k0).
Proof.
  intros E Hne.
  destruct (returned_sweep_head b s tMin tMax ts ks ps E Hne)
    as (k0 & rest & -> & Hb & Hmin & _ & Hk0 & Hall & Hmax).
  assert (Hb0 : 0 < b) by lra.
  exists k0. eexists. split; [reflexivity|]. split; [|split; [|split; [|split]]].
  - rewrite (calculate_ktg_valid b s tMin Hb Hmin).
    constructor. symmetry. exact Hk0.
  - now apply Forall_forall.
  - unfold Py.gt. now apply lt_true.
  - unfold efficiency, Py.max_list. rewrite Hmax. cbn [bind].
    rewrite improvement_pos by exact Hb0. cbn [bind]. reflexivity.
  - unfold report_improvement, Np.max. rewrite Hmax. cbn [bind].
    rewrite truediv_Return; [reflexivity|].
    intro E0. rewrite E0 in Hb0. discriminate.
Qed.

Lemma efficiency_from_first_point_witness :
  exists ts ks ps,
    generate_data 0.05 2 4 24 = Return (ts, ks, ps) /\
    exists k0 lvl,
      nth_error ks 0 = Some k0 /\
      result_eq Qeq (calculate_ktg 0.05 2 4) (Return k0) /\
      Forall (fun k => k <= k0) ks /\
      Py.gt 0.05 0 = true /\
      efficiency 0.05 ks = Return (Spec.percent_change 0.05 k0, lvl) /\
      report_improvement 0.05 ks = Return (Spec.percent_change 0.05 k0).
Proof.
  do 3 eexists. split; [vm_compute; reflexivity|].
  eapply (efficiency_from_first_point 0.05 2 4 24).
  - vm_compute. reflexivity.
  - discriminate.
Defined.

(** X5. Whenever the system recovery time does not exceed tMin (as with
    the defaults 2 and 4), no coefficient of a returned, non-empty sweep
    exceeds the baseline, the improvement is at most 0 and the indicator
    reports low efficiency. *)
Theorem efficiency_low_for_small_system_time b s tMin tMax ts ks ps :
  generate_data b s tMin tMax = Return (ts, ks, ps) -> ks <> [] ->
  s <= tMin ->
  Forall (fun k => k <= b) ks /\
  exists imp, efficiency b ks = Return (imp, warning) /\ imp <= 0.
Proof.
  intros E Hne Hs.
  destruct (returned_sweep_head b s tMin tMax ts ks ps E Hne)
    as (k0 & rest & -> & Hb & Hmin & _ & Hk0 & Hall & Hmax).
  assert (Hb0 : 0 < b) by lra.
  assert (Hq : s / tMin <= 1).
  { apply Qle_shift_div_r; [exact Hmin | lra]. }
  assert (Hk : k0 <= b).
  { rewrite Hk0. unfold ktg_at, Py.max, Py.min, Py.gt. cases_lt; nra. }
  assert (Himp : Spec.percent_change b k0 <= 0).
  { pose proof (percent_change_mul b k0 Hb0). nra. }
  split.
  - apply Forall_forall. intros k Hin. specialize (Hall k Hin). lra.
  - exists (Spec.percent_change b k0). split; [|exact Himp].
    unfold efficiency, Py.max_list. rewrite Hmax. cbn [bind].
    rewrite improvement_pos by exact Hb0. cbn [bind]. unfold Py.gt.
    assert (Py.lt 50 (Spec.percent_change b k0) = false) as ->
      by (apply lt_false; lra).
    now assert (Py.lt 20 (Spec.percent_change b k0) = false) as ->
      by (apply lt_false; lra).
Qed.

Lemma efficiency_low_for_small_system_time_witness :
  exists ts ks ps,
    generate_data 0.05 2 4 24 = Return (ts, ks, ps) /\
    Forall (fun k => k <= 0.05) ks /\
    exists imp, efficiency 0.05 ks = Return (imp, warning) /\ imp <= 0.
Proof.
  do 3 eexists. split; [vm_compute; reflexivity|].
  eapply (efficiency_low_for_small_system_time 0.05 2 4 24).
  - vm_compute. reflexivity.
  - discriminate.
  - discriminate.
Defined.

(* ----------------------------------------------------------------- *)
(** ** The status column *)

(** The coefficient is at least the baseline exactly when the historical
    time does not exceed the system time, or the baseline is the floor. *)
Lemma ktg_at_ge_baseline b s t :
  0.01 <= b <= 1 -> 0 < t ->
  (b <= ktg_at b s t <-> (t <= s \/ b == 0.01)).
Proof.
  intros Hb Ht.
  assert (Hx : s / t * t == s)
    by (field; intro E; rewrite E in Ht; discriminate).
  unfold ktg_at, Py.max, Py.min, Py.gt.
  remember (s / t) as q eqn:Eq. clear Eq.
  split.
  - intro H. destruct (Qlt_le_dec s t) as [Hst|Hst]; [|now left].
    right. assert (Hq : q < 1) by nra.
    revert H. cases_lt; intro H; nra.
  - intros [Hts | Hb1].
    + assert (Hq : 1 <= q) by nra. cases_lt; nra.
    + cases_lt; nra.
Qed.

Lemma status_nth ps i p :
  nth_error ps i = Some p ->
  nth_error (status ps) i
  = Some (if Py.ge p 0 then status_improved else status_worsened).
Proof.
  intro H. unfold status. now rewrite nth_error_map, H.
Qed.

(** X6. In a returned sweep the status of the point at historical time
    [t] is "Улучшение" exactly when [t] does not exceed the system
    recovery time or the baseline is the floor 0.01, and "Ухудшение"
    otherwise. *)
Theorem status_improved_iff b s tMin tMax ts ks ps i t st :
  generate_data b s tMin tMax = Return (ts, ks, ps) ->
  nth_error ts i = Some t ->
  nth_error (status ps) i = Some st ->
  (st = status_improved <-> (t <= s \/ b == 0.01)) /\
  (st = status_worsened <-> (s < t /\ 0.01 < b)).
Proof.
  intros E Ht Hst. apply generate_data_Return in E as (Hts & Hks & Hps).
  destruct Hps as [[-> ->] | [Hb ->]].
  { destruct i; discriminate Hst. }
  assert (Hlen : List.length ts = List.length ks)
    by (eapply Forall2_length; exact Hks).
  destruct (nth_error ks i) as [k|] eqn:Ek.
  2:{ apply nth_error_None in Ek.
      assert (nth_error ts i <> None) as Hn by congruence.
      apply nth_error_Some in Hn. lia. }
  destruct (Forall2_nth_r _ _ _ _ _ Hks Ek) as (t' & Ht' & Hcalc).
  assert (t' = t) as -> by congruence.
  apply calculate_ktg_Return in Hcalc as (Hpos & _ & ->).
  assert (Hp : nth_error (List.map (Spec.percent_change b) ks) i
               = Some (Spec.percent_change b (ktg_at b s t)))
    by now rewrite nth_error_map, Ek.
  rewrite (status_nth _ _ _ Hp) in Hst. injection Hst as <-.
  assert (Hb0 : 0 < b) by lra.
  assert (Hdiv : Spec.percent_change b (ktg_at b s t) * b
                 == (ktg_at b s t - b) * 100).
  { unfold Spec.percent_change. field.
    intro E0. rewrite E0 in Hb0. discriminate. }
  pose proof (ktg_at_ge_baseline b s t Hb Hpos) as Hge.
  unfold Py.ge.
  destruct (Py.le 0 (Spec.percent_change b (ktg_at b s t))) eqn:L.
  - apply le_true in L.
    assert (Hk : b <= ktg_at b s t) by nra.
    apply Hge in Hk. split.
    + split; [intros _; exact Hk | reflexivity].
    + split; [discriminate|].
      intros [H1 H2]. exfalso. destruct Hk as [Hk|Hk]; [lra|].
      rewrite Hk in H2. lra.
  - apply le_false in L.
    assert (Hk : ~ b <= ktg_at b s t) by (intro C; nra).
    split.
    + split; [discriminate|]. intro H. exfalso. apply Hk. now apply Hge.
    + split; [|reflexivity]. intros _. split.
      * apply Qnot_le_lt. intro C. apply Hk, Hge. now left.
      * apply Qnot_le_lt. intro C. apply Hk, Hge. right.
        apply Qle_antisym; lra.
Qed.

Lemma status_improved_iff_witness :
  (status_worsened = status_improved <-> (4.0 <= 2 \/ 0.05 == 0.01)) /\
  (status_worsened = status_worsened <-> (2 < 4.0 /\ 0.01 < 0.05)).
Proof.
  eapply (status_improved_iff 0.05 2 4 6 _ _ _ 0%nat 4.0 status_worsened).
  - vm_compute. reflexivity.
  - reflexivity.
  - reflexivity.
Defined.

(* ----------------------------------------------------------------- *)
(** ** "The coefficient reaches 1" *)

Lemma existsb_ge_false ks k0 :
  (forall k, In k ks -> k <= k0) -> k0 < 0.999 ->
  existsb (fun b => b) (List.map (fun k => Py.ge k 0.999) ks) = false.
Proof.
  intros H Hk0. induction ks as [|k ks IH]; cbn; [reflexivity|].
  assert (Py.ge k 0.999 = false) as ->.
  { unfold Py.ge. apply le_false.
    specialize (H k (or_introl eq_refl)). lra. }
  apply IH. intros; apply H; now right.
Qed.

(** X7. In a returned, non-empty sweep the first point alone decides
    whether the analysis says the coefficient reaches 1: it does exactly
    when the first coefficient, the one at tMin, is at least 0.999.  The
    index [np.where] then yields is 0 and the time reported is the first
    time of the sweep, tMin; otherwise the maximum that is printed is
    that first coefficient, below 0.999. *)
Theorem reaches_1_reports_t_min b s tMin tMax ts ks ps :
  generate_data b s tMin tMax = Return (ts, ks, ps) -> ks <> [] ->
  exists t0 k0,
    nth_error ts 0 = Some t0 /\ t0 == tMin /\ nth_error ks 0 = Some k0 /\
    (ktg_reaches_1 ks = true <-> 0.999 <= k0) /\
    (ktg_reaches_1 ks = true ->
       idx_1 ks = Some 0%nat /\ t_at_1 ts ks = Some t0) /\
    (ktg_reaches_1 ks = false ->
       Py.max_list ks = Return k0 /\ k0 < 0.999).
Proof.
  intros E Hne.
  destruct (returned_sweep_head b s tMin tMax ts ks ps E Hne)
    as (k0 & rest & -> & _ & _ & Hts & _ & Hall & Hmax).
  assert (Hrest : forall k, In k rest -> k <= k0)
    by (intros k Hk; apply Hall; now right).
  exists (Spec.grid tMin 0.5 0), k0.
  split; [exact Hts|]. split; [apply grid_0|]. split; [reflexivity|].
  unfold ktg_reaches_1, t_at_1, idx_1, Py.any, Np.where_, Py.max_list.
  cbn [List.map existsb Np.where_from].
  destruct (Py.ge k0 0.999) eqn:G; cbn [orb].
  - unfold Py.ge in G. apply le_true in G.
    split; [split; [intros _; exact G | reflexivity]|].
    split; [|discriminate].
    intros _. split; [reflexivity|]. exact Hts.
  - unfold Py.ge in G. apply le_false in G.
    rewrite (existsb_ge_false rest k0 Hrest G).
    split; [split; [discriminate | intro H; lra]|].
    split; [discriminate|].
    intros _. rewrite Hmax. now split.
Qed.

Lemma reaches_1_reports_t_min_witness :
  exists ts ks ps,
    generate_data 0.5 8 4 24 = Return (ts, ks, ps) /\
    exists t0 k0,
      nth_error ts 0 = Some t0 /\ t0 == 4 /\ nth_error ks 0 = Some k0 /\
      (ktg_reaches_1 ks = true <-> 0.999 <= k0) /\
      (ktg_reaches_1 ks = true ->
         idx_1 ks = Some 0%nat /\ t_at_1 ts ks = Some t0) /\
      (ktg_reaches_1 ks = false ->
         Py.max_list ks = Return k0 /\ k0 < 0.999).
Proof.
  do 3 eexists. split; [vm_compute; reflexivity|].
  eapply (reaches_1_reports_t_min 0.5 8 4 24).
  - vm_compute. reflexivity.
  - discriminate.
Defined.

(* ----------------------------------------------------------------- *)
(** ** Key points *)

Lemma argmin_from_keep xs i best best_i :
  (forall x, In x xs -> best <= x) ->
  Np.argmin_from xs i best best_i = best_i.
Proof.
  revert i. induction xs as [|x xs IH]; intros i H; cbn; [reflexivity|].
  assert (Py.lt x best = false) as ->
    by (apply lt_false; apply H; now left).
  apply IH. intros; apply H; now right.
Qed.

(** A strict minimum at relative position [j], below the running best,
    is what the scan returns. *)
Lemma argmin_from_strict xs i best best_i j v :
  nth_error xs j = Some v ->
  (forall k x, nth_error xs k = Some x -> k <> j -> v < x) ->
  v < best ->
  Np.argmin_from xs i best best_i = (i + j)%nat.
Proof.
  revert i best best_i j.
  induction xs as [|x xs IH]; intros i best best_i j Hj Hothers Hbest.
  - destruct j; discriminate.
  - destruct j as [|j]; cbn in *.
    + injection Hj as ->.
      assert (Py.lt v best = true) as -> by now apply lt_true.
      rewrite argmin_from_keep; [lia|].
      intros y Hy. apply In_nth_error in Hy as [k Hk].
      apply Qlt_le_weak. apply (Hothers (S k) y Hk). lia.
    + assert (Hx : v < x) by (apply (Hothers 0%nat x eq_refl); lia).
      assert (Hrest : forall k y, nth_error xs k = Some y -> k <> j -> v < y).
      { intros k y Hk Hkj. apply (Hothers (S k) y Hk). lia. }
      destruct (Py.lt x best).
      * rewrite (IH (S i) x i j Hj Hrest Hx). lia.
      * rewrite (IH (S i) best best_i j Hj Hrest Hbest). lia.
Qed.

Lemma argmin_strict a j v :
  nth_error a j = Some v ->
  (forall k x, nth_error a k = Some x -> k <> j -> v < x) ->
  Np.argmin a = Return j.
Proof.
  intros Hj Hothers. destruct a as [|x xs]; [destruct j; discriminate|].
  unfold Np.argmin. f_equal. destruct j as [|j]; cbn in Hj.
  - injection Hj as ->. apply argmin_from_keep.
    intros y Hy. apply In_nth_error in Hy as [k Hk].
    apply Qlt_le_weak. apply (Hothers (S k) y Hk). lia.
  - apply (argmin_from_strict xs 1 x 0 j v Hj).
    + intros k y Hk Hkj. apply (Hothers (S k) y Hk). lia.
    + apply (Hothers 0%nat x eq_refl). lia.
Qed.

Lemma abs_diff_grid_pos t0 (i j : nat) t :
  t == Spec.grid t0 0.5 j -> i <> j -> 0 < Qabs (Spec.grid t0 0.5 i - t).
Proof.
  intros Ht Hij. unfold Spec.grid in *.
  assert (Hd : inject_Z (Z.of_nat i) < inject_Z (Z.of_nat j) \/
               inject_Z (Z.of_nat j) < inject_Z (Z.of_nat i)).
  { destruct (Nat.lt_total i j) as [H|[H|H]]; [left | contradiction | right];
      rewrite <- Zlt_Qlt; lia. }
  apply Qabs_case; intros; destruct Hd; lra.
Qed.

Lemma abs_diff_grid_zero t0 (j : nat) t :
  t == Spec.grid t0 0.5 j -> Qabs (Spec.grid t0 0.5 j - t) <= 0.
Proof.
  intro Ht. apply Qabs_case; intros; lra.
Qed.

(** X8. When the bounds are a whole number of half hours apart and the
    key point [t] is one of the sweep's times, the nearest-point search
    picks exactly that time: the index is the position of [t], the
    lookup is in range, and the coefficient shown is the one
    [calculate_ktg] returns for [t]. *)
Theorem key_point_is_exact b s tMin tMax (n j : nat) t :
  0.01 <= b <= 1 -> 0 < tMin ->
  tMax == tMin + inject_Z (Z.of_nat n) * 0.5 ->
  (j <= n)%nat -> t == tMin + inject_Z (Z.of_nat j) * 0.5 ->
  exists ts ks ps k,
    generate_data b s tMin tMax = Return (ts, ks, ps) /\
    key_point_idx ts t = Return j /\
    key_point ts ks tMin tMax t = Return (Some (Some k)) /\
    result_eq Qeq (calculate_ktg b s t) (Return k).
Proof.
  intros Hb Hmin Hmax Hj Ht.
  pose proof (generate_data_explicit b s tMin tMax Hb Hmin) as E.
  rewrite (t_vosst_range_grid tMin tMax n Hmax) in E.
  assert (Hjn : (j <? S n)%nat = true) by (apply Nat.ltb_lt; lia).
  assert (Hidx : key_point_idx
                   (List.map (Spec.grid tMin 0.5) (seq 0 (S n))) t
                 = Return j).
  { unfold key_point_idx, Np.abs_diff. rewrite map_map.
    apply (argmin_strict _ j (Qabs (Spec.grid tMin 0.5 j - t))).
    - now rewrite nth_error_map_seq, Hjn.
    - intros k x. rewrite nth_error_map_seq.
      destruct (k <? S n)%nat; [|discriminate].
      intros [= <-] Hk.
      eapply Qle_lt_trans.
      + apply (abs_diff_grid_zero tMin j t Ht).
      + apply (abs_diff_grid_pos tMin k j t Ht Hk). }
  assert (Hj0 : 0 <= inject_Z (Z.of_nat j)).
  { change 0 with (inject_Z 0). rewrite <- Zle_Qle. lia. }
  assert (Hjn' : inject_Z (Z.of_nat j) <= inject_Z (Z.of_nat n))
    by (rewrite <- Zle_Qle; lia).
  do 4 eexists. split; [exact E|]. split; [exact Hidx|]. split.
  - unfold key_point.
    assert (Py.le tMin t = true) as -> by (apply le_true; nra).
    assert (Py.le t tMax = true) as -> by (apply le_true; nra).
    cbn [andb]. rewrite Hidx. cbn [bind].
    now rewrite map_map, nth_error_map_seq, Hjn.
  - rewrite calculate_ktg_valid; [|exact Hb | nra].
    constructor. apply ktg_at_compat. exact Ht.
Qed.

Lemma key_point_is_exact_witness :
  exists ts ks ps k,
    generate_data 0.05 2 4 24 = Return (ts, ks, ps) /\
    key_point_idx ts 8 = Return 8%nat /\
    key_point ts ks 4 24 8 = Return (Some (Some k)) /\
    result_eq Qeq (calculate_ktg 0.05 2 8) (Return k).
Proof.
  apply (key_point_is_exact 0.05 2 4 24 40 8 8).
  - split; discriminate.
  - reflexivity.
  - reflexivity.
  - lia.
  - reflexivity.
Defined.

(* ----------------------------------------------------------------- *)
(** ** The three analysis times *)

Lemma percent_change_mono b k1 k2 :
  0 < b -> k1 <= k2 -> Spec.percent_change b k1 <= Spec.percent_change b k2.
Proof.
  intros Hb Hk.
  assert (H : forall k, Spec.percent_change b k * b == (k - b) * 100).
  { intro k. unfold Spec.percent_change. field.
    intro E. rewrite E in Hb. discriminate. }
  pose proof (H k1). pose proof (H k2). nra.
Qed.

(** X9. For a baseline in [0.01, 1] and positive bounds tMin <= tMax the
    analysis evaluates [calculate_ktg] at tMin, at the midpoint and at
    tMax without raising; the midpoint lies between the bounds, and both
    the coefficients and their percent changes are ordered: critical >=
    average >= maximal time. *)
Theorem analysis_points_ordered b s tMin tMax :
  0.01 <= b <= 1 -> 0 < tMin -> tMin <= tMax ->
  exists k1 k2 k3 c1 c2 c3,
    analysis b s tMin tMax
    = Return [(tMin, k1, c1); ((tMin + tMax) / 2, k2, c2); (tMax, k3, c3)] /\
    calculate_ktg b s tMin = Return k1 /\
    calculate_ktg b s ((tMin + tMax) / 2) = Return k2 /\
    calculate_ktg b s tMax = Return k3 /\
    tMin <= (tMin + tMax) / 2 <= tMax /\
    k3 <= k2 <= k1 /\ c3 <= c2 <= c1.
Proof.
  intros Hb Hmin Hle.
  assert (Hmid : (tMin + tMax) / 2 * 2 == tMin + tMax) by field.
  assert (Hm : tMin <= (tMin + tMax) / 2 <= tMax) by (split; lra).
  assert (Hb0 : 0 < b) by lra.
  assert (Hnz : ~ b == 0) by (intro E; rewrite E in Hb0; discriminate).
  pose proof (calculate_ktg_valid b s tMin Hb Hmin) as E1.
  assert (E2 : calculate_ktg b s ((tMin + tMax) / 2)
               = Return (ktg_at b s ((tMin + tMax) / 2)))
    by (apply calculate_ktg_valid; [exact Hb | lra]).
  assert (E3 : calculate_ktg b s tMax = Return (ktg_at b s tMax))
    by (apply calculate_ktg_valid; [exact Hb | lra]).
  do 6 eexists. split; [|split; [exact E1 | split; [exact E2 | split;
    [exact E3 | split; [exact Hm|]]]]].
  - unfold analysis, analysis_times. cbn [Py.comprehension].
    rewrite E1, E2, E3. cbn [bind].
    rewrite !truediv_Return by exact Hnz. cbn [bind]. reflexivity.
  - assert (H32 : ktg_at b s tMax <= ktg_at b s ((tMin + tMax) / 2))
      by (apply ktg_at_antitone; lra).
    assert (H21 : ktg_at b s ((tMin + tMax) / 2) <= ktg_at b s tMin)
      by (apply ktg_at_antitone; lra).
    split; [split; assumption|].
    split; now apply (percent_change_mono b).
Qed.

Lemma analysis_points_ordered_witness :
  exists k1 k2 k3 c1 c2 c3,
    analysis 0.05 2 4 24
    = Return [(4, k1, c1); ((4 + 24) / 2, k2, c2); (24, k3, c3)] /\
    calculate_ktg 0.05 2 4 = Return k1 /\
    calculate_ktg 0.05 2 ((4 + 24) / 2) = Return k2 /\
    calculate_ktg 0.05 2 24 = Return k3 /\
    4 <= (4 + 24) / 2 <= 24 /\
    k3 <= k2 <= k1 /\ c3 <= c2 <= c1.
Proof.
  apply (analysis_points_ordered 0.05 2 4 24).
  - split; discriminate.
  - reflexivity.
  - discriminate.
Defined.

(* ----------------------------------------------------------------- *)
(** ** The exported summary *)

(** X10. For a returned, non-empty sweep the exported summary is
    produced: its mean is a number, its maximum is the first
    coefficient (the one at tMin), its minimum is an element of the
    sweep that no other element undercuts, minimum and maximum lie in
    [0.01, 1], and the maximal improvement is the percent change of the
    maximum. *)
Theorem export_summary_bounds b s tMin tMax ts ks ps :
  generate_data b s tMin tMax = Return (ts, ks, ps) -> ks <> [] ->
  exists r k0,
    export_df b ks = Return r /\
    mean_ktg r <> None /\
    nth_error ks 0 = Some k0 /\ max_ktg r = k0 /\
    result_eq Qeq (calculate_ktg b s tMin) (Return k0) /\
    In (min_ktg r) ks /\
    Forall (fun k => min_ktg r <= k <= max_ktg r) ks /\
    0.01 <= min_ktg r /\ max_ktg r <= 1 /\
    max_improvement r = Spec.percent_change b (max_ktg r).
Proof.
  intros E Hne.
  pose proof (sweep_nonincreasing_aux b s tMin tMax ts ks ps E) as Hrange.
  rewrite Forall_forall in Hrange.
  destruct (returned_sweep_head b s tMin tMax ts ks ps E Hne)
    as (k0 & rest & -> & Hb & Hmin & _ & Hk0 & Hall & Hmax).
  assert (Hb0 : 0 < b) by lra.
  pose proof (fold_left_min_In rest k0) as Hin.
  eexists. exists k0. split.
  - unfold export_df, Np.max, Np.min, Py.gt. cbn [bind]. rewrite Hmax.
    assert (Py.lt 0 b = true) as -> by now apply lt_true.
    cbn [bind]. rewrite truediv_Return; [reflexivity|].
    intro E0. rewrite E0 in Hb0. discriminate.
  - cbn [mean_ktg max_ktg min_ktg max_improvement].
    split; [discriminate|]. split; [reflexivity|]. split; [reflexivity|].
    split.
    { rewrite (calculate_ktg_valid b s tMin Hb Hmin).
      constructor. symmetry. exact Hk0. }
    split; [exact Hin|]. split.
    { apply Forall_forall. intros k Hk. split.
      - now apply fold_left_min_le.
      - now apply Hall. }
    split; [apply (Hrange _ Hin)|].
    split; [apply Hrange; now left | reflexivity].
Qed.

Lemma export_summary_bounds_witness :
  exists ts ks ps,
    generate_data 0.05 2 4 24 = Return (ts, ks, ps) /\
    exists r k0,
      export_df 0.05 ks = Return r /\
      mean_ktg r <> None /\
      nth_error ks 0 = Some k0 /\ max_ktg r = k0 /\
      result_eq Qeq (calculate_ktg 0.05 2 4) (Return k0) /\
      In (min_ktg r) ks /\
      Forall (fun k => min_ktg r <= k <= max_ktg r) ks /\
      0.01 <= min_ktg r /\ max_ktg r <= 1 /\
      max_improvement r = Spec.percent_change 0.05 (max_ktg r).
Proof.
  do 3 eexists. split; [vm_compute; reflexivity|].
  eapply (export_summary_bounds 0.05 2 4 24).
  - vm_compute. reflexivity.
  - discriminate.
Defined.

(* ----------------------------------------------------------------- *)
(** ** The heat map: size, range and monotonicity *)

Lemma ktg_at_monotone b s1 s2 t :
  0 <= b -> 0 < t -> s1 <= s2 -> ktg_at b s1 t <= ktg_at b s2 t.
Proof.
  intros Hb Ht Hs. unfold ktg_at. apply max_min_mono.
  pose proof (Qdiv_monotone s1 s2 t Ht Hs). nra.
Qed.

Lemma heatmap_data_valid b tMin tMax :
  0.01 <= b <= 1 -> 0 < tMin ->
  heatmap_data b tMin tMax
  = Return (List.map (fun t_sist =>
                        List.map (ktg_at b t_sist) (t_ishod_range tMin tMax))
                     t_sist_range).
Proof.
  intros Hb Hmin. rewrite heatmap_data_comprehension.
  apply comprehension_map. intros t_sist _.
  apply comprehension_map. intros t_ishod Hin.
  apply calculate_ktg_valid; [exact Hb|].
  now apply (t_ishod_range_pos tMin tMax).
Qed.

(** X11. For a baseline in [0.01, 1] and a positive tMin the heat map
    has ten rows, one per system time, each with one cell per historical
    time; every cell lies in [0.01, 1], inside the colour scale [0, 1];
    cells never increase along a row (growing historical time) and
    never decrease down a column (growing system time). *)
Theorem heatmap_shape_and_monotonicity b tMin tMax :
  0.01 <= b <= 1 -> 0 < tMin ->
  exists cells,
    heatmap_data b tMin tMax = Return cells /\
    List.length cells = 10%nat /\
    Forall (fun row =>
              List.length row = List.length (t_ishod_range tMin tMax) /\
              nonincreasing row /\
              Forall (fun cell => 0.01 <= cell <= 1) row) cells /\
    (forall i i' j row row' x y,
       (i <= i')%nat ->
       nth_error cells i = Some row -> nth_error cells i' = Some row' ->
       nth_error row j = Some x -> nth_error row' j = Some y -> x <= y).
Proof.
  intros Hb Hmin.
  assert (Hcols : forall j t, nth_error (t_ishod_range tMin tMax) j = Some t ->
                    t = Spec.grid tMin 1 j)
    by (intros j t H; now apply arange_nth_error in H).
  assert (Hrows : t_sist_range = List.map (Spec.grid 1 0.5) (seq 0 10))
    by reflexivity.
  eexists. split; [now apply heatmap_data_valid|].
  split; [now rewrite length_map, Hrows, length_map, length_seq|].
  split.
  - apply Forall_map, Forall_forall. intros t_sist _.
    split; [now rewrite length_map|]. split.
    + intros i j x y Hij. rewrite !nth_error_map.
      destruct (nth_error (t_ishod_range tMin tMax) i) as [ti|] eqn:Ei;
        [|discriminate].
      destruct (nth_error (t_ishod_range tMin tMax) j) as [tj|] eqn:Ej;
        [|discriminate].
      cbn. intros [= <-] [= <-].
      apply Hcols in Ei, Ej. subst.
      apply ktg_at_antitone; [lra | |].
      * apply grid_pos; [exact Hmin | reflexivity].
      * apply grid_mono; [discriminate | exact Hij].
    + apply Forall_map, Forall_forall. intros t _. apply ktg_at_bounds.
  - intros i i' j row row' x y Hii'. rewrite Hrows, map_map.
    rewrite !nth_error_map_seq.
    destruct (i <? 10)%nat; [|discriminate].
    destruct (i' <? 10)%nat; [|discriminate].
    intros [= <-] [= <-]. rewrite !nth_error_map.
    destruct (nth_error (t_ishod_range tMin tMax) j) as [tj|] eqn:Ej;
      [|discriminate].
    cbn. intros [= <-] [= <-].
    apply Hcols in Ej. subst.
    apply ktg_at_monotone; [lra | |].
    + apply grid_pos; [exact Hmin | reflexivity].
    + apply grid_mono; [discriminate | exact Hii'].
Qed.

Lemma heatmap_shape_and_monotonicity_witness :
  exists cells,
    heatmap_data 0.05 4 24 = Return cells /\
    List.length cells = 10%nat /\
    Forall (fun row =>
              List.length row = List.length (t_ishod_range 4 24) /\
              nonincreasing row /\
              Forall (fun cell => 0.01 <= cell <= 1) row) cells /\
    (forall i i' j row row' x y,
       (i <= i')%nat ->
       nth_error cells i = Some row -> nth_error cells i' = Some row' ->
       nth_error row j = Some x -> nth_error row' j = Some y -> x <= y).
Proof.
  apply (heatmap_shape_and_monotonicity 0.05 4 24).
  - split; discriminate.
  - reflexivity.
Defined.

(* ----------------------------------------------------------------- *)
(** ** A NaN system time on binary64 *)

Section Binary64NaN.

Import PrimFloat SpecFloat FloatOps FloatAxioms.
#[local] Set Warnings "-inexact-float".
Local Open Scope float_scope.

Lemma Prim2SF_is_nan x : is_nan x = true -> Prim2SF x = S754_nan.
Proof. intro H. unfold Prim2SF. now rewrite H. Qed.

Lemma binary64_ltb_nan x y : Prim2SF x = S754_nan -> (x <? y) = false.
Proof. intro H. rewrite ltb_spec, H. reflexivity. Qed.

(** X12. On doubles a NaN system time is not rejected: with a valid
    baseline and a positive historical time the quotient and the raw
    product are NaN, the test [raw < 1] inside [min(1, raw)] fails, and
    the call returns 1.0, full readiness. *)
Theorem binary64_nan_system_time_gives_1 b s h :
  is_nan s = true ->
  (h <=? 0) = false -> (0.01 <=? b) = true -> (b <=? 1) = true ->
  Binary64.calculate_ktg b s h = Return 1.
Proof.
  intros Hs Hh Hb1 Hb2. unfold Binary64.calculate_ktg, Binary64.truediv.
  rewrite Hh, Hb1, Hb2. cbn [andb negb].
  destruct (h =? 0) eqn:E0.
  { apply binary64_eqb_leb in E0. congruence. }
  cbn [bind]. f_equal.
  assert (Hq : Prim2SF (s / h) = S754_nan).
  { rewrite div_spec, (Prim2SF_is_nan s Hs). reflexivity. }
  assert (Hraw : Prim2SF (b * (s / h)) = S754_nan).
  { rewrite mul_spec, Hq. unfold SF64mul, SFmul.
    now destruct (Prim2SF b). }
  unfold Binary64.min. rewrite (binary64_ltb_nan _ 1 Hraw).
  reflexivity.
Qed.

Lemma binary64_nan_system_time_gives_1_witness :
  Binary64.calculate_ktg 0.05 nan 4 = Return 1.
Proof.
  apply (binary64_nan_system_time_gives_1 0.05 nan 4); reflexivity.
Defined.

End Binary64NaN.
